(** * exportSurvivalData: survival-assay tables to the Prism layout

    A shallow embedding of [exportSurvivalData.py].  The script reads a
    spreadsheet into a pandas DataFrame, splits it by temperature
    ([filter_datatable]) and expands the per-day death counts into one row
    per animal ([convert_datatable]).

    The DataFrame operations the script uses are modelled below, each next
    to the pandas expression it stands for.  Numbers are exact rationals:
    integer cells and their sums are exact, the rounding of binary floating
    point on fractional cells is not represented. *)

From Stdlib Require Import List String Ascii ZArith QArith Bool Arith Lia.
From Stdlib Require Import DecimalString.
From Stdlib Require Import Permutation.
Import ListNotations.

Open Scope string_scope.
Open Scope list_scope.
Open Scope nat_scope.

(** ** Errors and the result monad *)

(** The exceptions the modelled code can raise.  [NotSummable] stands for
    what happens when a column holding text is summed and passed to [int]:
    pandas concatenates the text or raises TypeError, and [int] raises
    ValueError unless the text happens to parse; that behaviour is not
    followed further and every such run ends in this error. *)
Inductive error : Type :=
| AttributeError (attr : string)
| KeyError (key : string)
| IndexError
| ValueError
| NotSummable.

Inductive result (A : Type) : Type :=
| Ok (a : A)
| Raise (e : error).
Arguments Ok {A} a.
Arguments Raise {A} e.

Definition bind {A B} (r : result A) (k : A -> result B) : result B :=
  match r with
  | Ok a => k a
  | Raise e => Raise e
  end.

Notation "x <- r ;; k" := (bind r (fun x => k))
  (at level 61, r at next level, right associativity).

(** [for x in xs: body], the loop state threaded through the iterations. *)
Fixpoint for_each {A S} (xs : list A) (body : A -> S -> result S) (st : S)
  : result S :=
  match xs with
  | [] => Ok st
  | x :: xs' => st' <- body x st ;; for_each xs' body st'
  end.

(** [for i in range(n): body] where the body does not read [i]. *)
Fixpoint for_range {S} (n : nat) (body : S -> result S) (st : S) : result S :=
  match n with
  | O => Ok st
  | S k => st' <- body st ;; for_range k body st'
  end.

(** ** Python strings

    Labels are ASCII, so a character is one element of a [string]. *)

(** [s.startswith(p)] *)
Fixpoint startswith (p s : string) : bool :=
  match p, s with
  | EmptyString, _ => true
  | String a p', String b s' => Ascii.eqb a b && startswith p' s'
  | String _ _, EmptyString => false
  end.

(** [needle in hay] on strings: substring test. *)
Fixpoint str_in (needle hay : string) : bool :=
  startswith needle hay ||
  match hay with
  | EmptyString => false
  | String _ hay' => str_in needle hay'
  end.

(** [s[-1]]: the last character as a one-character string; IndexError on the
    empty string. *)
Fixpoint str_last (s : string) : result string :=
  match s with
  | EmptyString => Raise IndexError
  | String a EmptyString => Ok (String a EmptyString)
  | String _ s' => str_last s'
  end.

(** [str(n)] on an integer. *)
Definition str (n : Z) : string := NilZero.string_of_int (Z.to_int n).

(** ** Cells, Series and DataFrames *)

(** A spreadsheet cell as [read_excel] delivers it: a number, text, or a
    missing value (NaN). *)
Inductive cell : Type :=
| CNum (q : Q)
| CStr (s : string)
| CNaN.

(** [a == b] on scalars, as pandas applies it element by element: numbers
    compare by value, text by content, a number never equals text, and NaN
    equals nothing. *)
Definition cell_eq (a b : cell) : bool :=
  match a, b with
  | CNum p, CNum q => Qeq_bool p q
  | CStr s, CStr t => String.eqb s t
  | _, _ => false
  end.

Definition Series := list cell.
Definition Mask := list bool.

(** A DataFrame: the ordered column labels and the rows, each with its index
    label and its values in column order.  Column labels are unique in every
    table [read_excel] returns; a value missing at the end of a row reads as
    NaN. *)
Record DataFrame : Type := mkDF {
  columns : list string;
  rows : list (nat * list cell)
}.

(** [df.keys()] *)
Definition keys (df : DataFrame) : list string := columns df.

(** [len(df)] *)
Definition len (df : DataFrame) : nat := List.length (rows df).

(** Position of a column label. *)
Fixpoint position (name : string) (cols : list string) : option nat :=
  match cols with
  | [] => None
  | c :: cols' =>
      if String.eqb c name then Some O
      else option_map S (position name cols')
  end.

(** [name in df] *)
Definition has_column (name : string) (df : DataFrame) : bool :=
  match position name (columns df) with
  | Some _ => true
  | None => false
  end.

Definition value_at (j : nat) (r : nat * list cell) : cell := nth j (snd r) CNaN.

(** The column at position [j]. *)
Definition column_at (j : nat) (df : DataFrame) : Series :=
  map (value_at j) (rows df).

(** [df.name]: attribute access to a column. *)
Definition getattr (df : DataFrame) (name : string) : result Series :=
  match position name (columns df) with
  | Some j => Ok (column_at j df)
  | None => Raise (AttributeError name)
  end.

(** [df[name]] with a single label. *)
Definition getitem (df : DataFrame) (name : string) : result Series :=
  match position name (columns df) with
  | Some j => Ok (column_at j df)
  | None => Raise (KeyError name)
  end.

(** [series == v] and [series != v] *)
Definition series_eq (s : Series) (v : cell) : Mask :=
  map (fun c => cell_eq c v) s.
Definition series_ne (s : Series) (v : cell) : Mask :=
  map (fun c => negb (cell_eq c v)) s.

(** [np.ones(n).astype(bool)] *)
Definition ones_bool (n : nat) : Mask := repeat true n.

(** [a & b] on masks of one table. *)
Fixpoint mask_and (a b : Mask) : Mask :=
  match a, b with
  | x :: a', y :: b' => (x && y) :: mask_and a' b'
  | _, _ => []
  end.

(** [df[mask]]: the rows where the mask holds, labels kept. *)
Fixpoint select_rows {A} (xs : list A) (mask : Mask) : list A :=
  match xs, mask with
  | x :: xs', b :: mask' =>
      if b then x :: select_rows xs' mask' else select_rows xs' mask'
  | _, _ => []
  end.

Definition getitem_mask (df : DataFrame) (mask : Mask) : DataFrame :=
  mkDF (columns df) (select_rows (rows df) mask).

(** Positions of a list of labels; KeyError on the first label not found. *)
Fixpoint positions (names cols : list string) : result (list nat) :=
  match names with
  | [] => Ok []
  | n :: names' =>
      match position n cols with
      | Some j => js <- positions names' cols ;; Ok (j :: js)
      | None => Raise (KeyError n)
      end
  end.

Definition project (js : list nat) (r : nat * list cell) : nat * list cell :=
  (fst r, map (fun j => value_at j r) js).

(** [df[names]] with a list of labels. *)
Definition getitem_cols (df : DataFrame) (names : list string)
  : result DataFrame :=
  js <- positions names (columns df) ;;
  Ok (mkDF names (map (project js) (rows df))).

(** [series.sum()]: missing values are skipped, the empty sum is 0. *)
Fixpoint series_sum (s : Series) : result Q :=
  match s with
  | [] => Ok 0%Q
  | CNum q :: s' => t <- series_sum s' ;; Ok (q + t)%Q
  | CNaN :: s' => series_sum s'
  | CStr _ :: _ => Raise NotSummable
  end.

(** [int(x)] on a number: truncation towards zero. *)
Definition py_int (q : Q) : Z := Z.quot (Qnum q) (Zpos (Qden q)).

(** Number of iterations of [range(n)]: none when [n] is negative. *)
Definition range_len (n : Z) : nat := Z.to_nat n.

(** The rows after an assignment to label [k]: the row labelled [k] is
    overwritten, a label the index does not hold is appended at the end. *)
Fixpoint set_row (k : nat) (vals : list cell) (rs : list (nat * list cell))
  : list (nat * list cell) :=
  match rs with
  | [] => [(k, vals)]
  | (l, r) :: rs' =>
      if Nat.eqb l k then (l, vals) :: rs' else (l, r) :: set_row k vals rs'
  end.

(** [df.loc[k] = vals] with a list: setting with enlargement; ValueError
    when the list does not have one value per column. *)
Definition loc_setitem (df : DataFrame) (k : nat) (vals : list cell)
  : result DataFrame :=
  if Nat.eqb (List.length vals) (List.length (columns df))
  then Ok (mkDF (columns df) (set_row k vals (rows df)))
  else Raise ValueError.

(** ** The script *)

Definition lowTemp : Z := 23.
Definition midTemp : Z := 30.
Definition highTemp : Z := 37.

Definition num (z : Z) : cell := CNum (inject_Z z).

(** The loop that collects the column names without 'eggs'. *)
Definition collect_columnNames (datatable : DataFrame) : result (list string) :=
  for_each (keys datatable)
    (fun cn columnNames =>
       if str_in "eggs" cn then Ok columnNames
       else Ok (columnNames ++ [cn]))
    [].

Definition filter_datatable (datatable : DataFrame) (wormSex : option string)
  : result (DataFrame * DataFrame * DataFrame) :=
  columnNames <- collect_columnNames datatable ;;
  sexIDX <- match wormSex with
            | Some w => sex <- getattr datatable "sex" ;;
                        Ok (series_eq sex (CStr w))
            | None => Ok (ones_bool (len datatable))
            end ;;
  keepIDX <- (if has_column "exclude" datatable
              then exclude <- getattr datatable "exclude" ;;
                   Ok (series_ne exclude (num 1))
              else Ok (ones_bool (len datatable))) ;;
  lowtemp <- (temp <- getattr datatable "temp" ;; Ok (series_eq temp (num lowTemp))) ;;
  midtemp <- (temp <- getattr datatable "temp" ;; Ok (series_eq temp (num midTemp))) ;;
  hightemp <- (temp <- getattr datatable "temp" ;; Ok (series_eq temp (num highTemp))) ;;
  lowdata <- getitem_cols
               (getitem_mask datatable (mask_and (mask_and sexIDX keepIDX) lowtemp))
               columnNames ;;
  middata <- getitem_cols
               (getitem_mask datatable (mask_and (mask_and sexIDX keepIDX) midtemp))
               columnNames ;;
  highdata <- getitem_cols
                (getitem_mask datatable (mask_and (mask_and sexIDX keepIDX) hightemp))
                columnNames ;;
  Ok (lowdata, middata, highdata).

(** The loop that collects the day columns of the low-temperature table. *)
Definition collect_dayNames (lowdata : DataFrame) : result (list string) :=
  for_each (keys lowdata)
    (fun cn dayNames =>
       if startswith "Day" cn then Ok (dayNames ++ [cn]) else Ok dayNames)
    [].

(** The three rows the expansion writes. *)
Definition low_row (t : string) : list cell := [CStr t; num 1; CStr ""; CStr ""].
Definition mid_row (t : string) : list cell := [CStr t; CStr ""; num 1; CStr ""].
Definition high_row (t : string) : list cell := [CStr t; CStr ""; CStr ""; num 1].

(** [int(data[day].sum())] *)
Definition day_count (data : DataFrame) (day : string) : result Z :=
  col <- getitem data day ;;
  s <- series_sum col ;;
  Ok (py_int s).

(** One inner loop: [for i in range(int(data[day].sum())):
    newdatatable.loc[len(newdatatable)] = row(day[-1])]. *)
Definition emit_rows (data : DataFrame) (day : string)
  (row : string -> list cell) (newdatatable : DataFrame) : result DataFrame :=
  n <- day_count data day ;;
  for_range (range_len n)
    (fun ndt => t <- str_last day ;; loc_setitem ndt (len ndt) (row t))
    newdatatable.

Definition empty_output : DataFrame :=
  mkDF ["time"; str lowTemp; str midTemp; str highTemp] [].

Definition convert_datatable (lowdata middata highdata : DataFrame)
  : result DataFrame :=
  dayNames <- collect_dayNames lowdata ;;
  for_each dayNames
    (fun day newdatatable =>
       ndt1 <- emit_rows lowdata day low_row newdatatable ;;
       ndt2 <- emit_rows middata day mid_row ndt1 ;;
       emit_rows highdata day high_row ndt2)
    empty_output.

(** [main] without the dialogs and the file access: filter, then expand. *)
Definition pipeline (datatable : DataFrame) (wormSex : option string)
  : result DataFrame :=
  tables <- filter_datatable datatable wormSex ;;
  let '(lowdata, middata, highdata) := tables in
  convert_datatable lowdata middata highdata.

(** ** The expansion loops, one step at a time

    The same loops of [convert_datatable] as a transition relation on
    configurations: which day columns are still to do, which of the three
    inner loops is running, how many iterations it has left, and the output
    table built so far. *)

Inductive phase : Type := Low | Mid | High.

Inductive config : Type :=
| Enter (days : list string) (ph : phase) (newdatatable : DataFrame)
| Loop (days : list string) (ph : phase) (left : nat) (newdatatable : DataFrame)
| Halt (r : result DataFrame).

Definition phase_row (ph : phase) : string -> list cell :=
  match ph with
  | Low => low_row
  | Mid => mid_row
  | High => high_row
  end.

Section Expander.

Variables lowdata middata highdata : DataFrame.

Definition phase_data (ph : phase) : DataFrame :=
  match ph with
  | Low => lowdata
  | Mid => middata
  | High => highdata
  end.

(** The body of an inner loop. *)
Definition append_row (day : string) (ph : phase) (ndt : DataFrame)
  : result DataFrame :=
  t <- str_last day ;; loc_setitem ndt (len ndt) (phase_row ph t).

Inductive step : config -> config -> Prop :=
| step_done : forall ndt,
    step (Enter [] Low ndt) (Halt (Ok ndt))
| step_count : forall day days ph ndt n,
    day_count (phase_data ph) day = Ok n ->
    step (Enter (day :: days) ph ndt) (Loop (day :: days) ph (range_len n) ndt)
| step_count_raise : forall day days ph ndt e,
    day_count (phase_data ph) day = Raise e ->
    step (Enter (day :: days) ph ndt) (Halt (Raise e))
| step_append : forall day days ph k ndt ndt',
    append_row day ph ndt = Ok ndt' ->
    step (Loop (day :: days) ph (S k) ndt) (Loop (day :: days) ph k ndt')
| step_append_raise : forall day days ph k ndt e,
    append_row day ph ndt = Raise e ->
    step (Loop (day :: days) ph (S k) ndt) (Halt (Raise e))
| step_low_end : forall day days ndt,
    step (Loop (day :: days) Low 0 ndt) (Enter (day :: days) Mid ndt)
| step_mid_end : forall day days ndt,
    step (Loop (day :: days) Mid 0 ndt) (Enter (day :: days) High ndt)
| step_high_end : forall day days ndt,
    step (Loop (day :: days) High 0 ndt) (Enter days Low ndt).

Inductive steps : config -> config -> Prop :=
| steps_refl : forall c, steps c c
| steps_cons : forall c1 c2 c3, step c1 c2 -> steps c2 c3 -> steps c1 c3.

(** A complete run of the expansion ending in [r]. *)
Definition expands (r : result DataFrame) : Prop :=
  match collect_dayNames lowdata with
  | Ok dayNames => steps (Enter dayNames Low empty_output) (Halt r)
  | Raise e => r = Raise e
  end.

(** Where an inner loop that ended with [r] leaves the run. *)
Definition after_loop (day : string) (days : list string) (ph : phase)
  (r : result DataFrame) : config :=
  match r with
  | Ok ndt => Loop (day :: days) ph 0 ndt
  | Raise e => Halt (Raise e)
  end.

(** The body of the outer loop of [convert_datatable]. *)
Definition day_body (day : string) (newdatatable : DataFrame)
  : result DataFrame :=
  ndt1 <- emit_rows lowdata day low_row newdatatable ;;
  ndt2 <- emit_rows middata day mid_row ndt1 ;;
  emit_rows highdata day high_row ndt2.

End Expander.

(** A complete run of filter-then-expand ending in [r]. *)
Definition executes (datatable : DataFrame) (wormSex : option string)
  (r : result DataFrame) : Prop :=
  match filter_datatable datatable wormSex with
  | Ok (lowdata, middata, highdata) => expands lowdata middata highdata r
  | Raise e => r = Raise e
  end.

(** ** What the specification says, in its own words *)

(** The value a row holds under a column label, if the table has the label. *)
Definition cell_of (cols : list string) (name : string) (r : nat * list cell)
  : option cell :=
  option_map (fun j => value_at j r) (position name cols).

(** "sex matches selector, or selector is absent" *)
Definition sex_matches (cols : list string) (wormSex : option string)
  (r : nat * list cell) : bool :=
  match wormSex with
  | None => true
  | Some w =>
      match cell_of cols "sex" r with
      | Some c => cell_eq c (CStr w)
      | None => false
      end
  end.

(** "exclude-flag column absent, or its value is not 1" *)
Definition not_excluded (cols : list string) (r : nat * list cell) : bool :=
  match cell_of cols "exclude" r with
  | Some c => negb (cell_eq c (num 1))
  | None => true
  end.

(** "exclude == 1" *)
Definition excluded (cols : list string) (r : nat * list cell) : bool :=
  match cell_of cols "exclude" r with
  | Some c => cell_eq c (num 1)
  | None => false
  end.

(** "condition column equals the given condition" *)
Definition temp_is (cols : list string) (cond : Z) (r : nat * list cell) : bool :=
  match cell_of cols "temp" r with
  | Some c => cell_eq c (num cond)
  | None => false
  end.

Definition spec_keeps (cols : list string) (wormSex : option string) (cond : Z)
  (r : nat * list cell) : bool :=
  sex_matches cols wormSex r && not_excluded cols r && temp_is cols cond r.

(** "keep every column whose name does not contain the substring eggs" *)
Definition no_eggs (cn : string) : bool := negb (str_in "eggs" cn).

(** The same, read as missing when the table does not have the label. *)
Definition lookup (cols : list string) (name : string) (r : nat * list cell)
  : cell :=
  match cell_of cols name r with
  | Some c => c
  | None => CNaN
  end.

(** A row cut down to the given labels. *)
Definition restrict (cols names : list string) (r : nat * list cell)
  : nat * list cell :=
  (fst r, map (fun n => lookup cols n r) names).

(** The filtered table of one condition as the specification describes it. *)
Definition spec_filtered (raw : DataFrame) (wormSex : option string) (cond : Z)
  : DataFrame :=
  let names := filter no_eggs (columns raw) in
  mkDF names
    (map (restrict (columns raw) names)
         (filter (spec_keeps (columns raw) wormSex cond) (rows raw))).

(** [hay] contains [needle] as a substring. *)
Definition contains (needle hay : string) : Prop :=
  exists pre post, hay = (pre ++ needle ++ post)%string.

(** "every column whose name begins with the literal prefix Day" *)
Definition day_columns (df : DataFrame) : list string :=
  filter (startswith "Day") (columns df).

(** The sum of a column: its numbers added up, everything else skipped. *)
Fixpoint total (s : Series) : Q :=
  match s with
  | [] => 0%Q
  | CNum q :: s' => (q + total s')%Q
  | _ :: s' => total s'
  end.

Definition column_total (df : DataFrame) (day : string) : Q :=
  match position day (columns df) with
  | Some j => total (column_at j df)
  | None => 0%Q
  end.

(** The count of a day column: its sum truncated to an integer. *)
Definition count (df : DataFrame) (day : string) : Z :=
  py_int (column_total df day).

(** The last character of a label, empty for the empty label. *)
Definition last_char (s : string) : string :=
  match str_last s with
  | Ok t => t
  | Raise _ => ""
  end.

(** The rows of one day: low first, then mid, then high. *)
Definition day_block (lowdata middata highdata : DataFrame) (day : string)
  : list (list cell) :=
  repeat (low_row (last_char day)) (range_len (count lowdata day)) ++
  repeat (mid_row (last_char day)) (range_len (count middata day)) ++
  repeat (high_row (last_char day)) (range_len (count highdata day)).

(** Index labels 0, 1, 2, ... put on a list of rows. *)
Definition relabel (vs : list (list cell)) : list (nat * list cell) :=
  combine (seq 0 (List.length vs)) vs.

(** The output table holding the given rows. *)
Definition built (vs : list (list cell)) : DataFrame :=
  mkDF (columns empty_output) (relabel vs).

(** The sums the expansion evaluates for one day, in the order it does. *)
Definition check_day (lowdata middata highdata : DataFrame) (day : string)
  : result unit :=
  _ <- day_count lowdata day ;;
  _ <- day_count middata day ;;
  _ <- day_count highdata day ;;
  Ok tt.

Definition check_days (lowdata middata highdata : DataFrame) (days : list string)
  : result unit :=
  for_each days (fun day _ => check_day lowdata middata highdata day) tt.





(** The three condition columns of an output row, read by their labels. *)
Definition condition_values (out : DataFrame) (r : nat * list cell)
  : option (cell * cell * cell) :=
  match cell_of (columns out) (str lowTemp) r,
        cell_of (columns out) (str midTemp) r,
        cell_of (columns out) (str highTemp) r with
  | Some a, Some b, Some c => Some (a, b, c)
  | _, _, _ => None
  end.

(** "exactly one of the three condition-value columns is 1 and the other two
    are empty" *)
Definition exactly_one (v : cell * cell * cell) : Prop :=
  v = (num 1, CStr "", CStr "") \/
  v = (CStr "", num 1, CStr "") \/
  v = (CStr "", CStr "", num 1).

(** Index labels n, n+1, ... put on a list of rows. *)
Definition label_from (n : nat) (vs : list (list cell)) : list (nat * list cell) :=
  combine (seq n (List.length vs)) vs.

(** ** Example tables *)

(** The two rows of the specification's example. *)
Definition example_table : DataFrame :=
  mkDF ["temp"; "sex"; "exclude"; "Day3"; "Day4"]
       [ (0, [num 23; CStr "F"; num 0; num 2; num 1]);
         (1, [num 30; CStr "F"; num 0; num 1; num 0]) ].

Definition example_output : DataFrame :=
  mkDF ["time"; "23"; "30"; "37"]
       [ (0, [CStr "3"; num 1; CStr ""; CStr ""]);
         (1, [CStr "3"; num 1; CStr ""; CStr ""]);
         (2, [CStr "3"; CStr ""; num 1; CStr ""]);
         (3, [CStr "4"; num 1; CStr ""; CStr ""]) ].

(** A table with an egg-count column, an excluded row, a missing value and a
    fractional count. *)
Definition assay_table : DataFrame :=
  mkDF ["temp"; "sex"; "exclude"; "eggs_laid"; "Day1"; "Day2"]
       [ (0, [num 23; CStr "F"; num 0; num 40; num 1; num 2]);
         (1, [num 23; CStr "M"; num 1; num 12; num 5; num 5]);
         (2, [num 30; CStr "F"; num 0; CNaN; CNaN; num 1]);
         (3, [num 37; CStr "F"; CNaN; num 7; CNum (1 # 2); CNum (3 # 2)]);
         (4, [num 37; CStr "M"; num 0; num 3; CNum (3 # 4); num 0]) ].

(** [assay_table] without its excluded row. *)
Definition assay_table_kept : DataFrame :=
  mkDF ["temp"; "sex"; "exclude"; "eggs_laid"; "Day1"; "Day2"]
       [ (0, [num 23; CStr "F"; num 0; num 40; num 1; num 2]);
         (2, [num 30; CStr "F"; num 0; CNaN; CNaN; num 1]);
         (3, [num 37; CStr "F"; CNaN; num 7; CNum (1 # 2); CNum (3 # 2)]);
         (4, [num 37; CStr "M"; num 0; num 3; CNum (3 # 4); num 0]) ].

(** The three filtered tables of [assay_table] with no sex filter, and the
    table the expansion makes of them. *)
Definition assay_low : DataFrame := spec_filtered assay_table None lowTemp.
Definition assay_mid : DataFrame := spec_filtered assay_table None midTemp.
Definition assay_high : DataFrame := spec_filtered assay_table None highTemp.

Definition assay_output : DataFrame :=
  mkDF ["time"; "23"; "30"; "37"]
       [ (0, [CStr "1"; num 1; CStr ""; CStr ""]);
         (1, [CStr "1"; CStr ""; CStr ""; num 1]);
         (2, [CStr "2"; num 1; CStr ""; CStr ""]);
         (3, [CStr "2"; num 1; CStr ""; CStr ""]);
         (4, [CStr "2"; CStr ""; num 1; CStr ""]);
         (5, [CStr "2"; CStr ""; CStr ""; num 1]) ].

(** ** The prompts and the save path

    [os.path] is modelled as on POSIX systems, where the separator is the
    slash. *)

(** [s.endswith(suffix)] *)
Fixpoint endswith (suffix s : string) : bool :=
  String.eqb suffix s ||
  match s with
  | EmptyString => false
  | String _ s' => endswith suffix s'
  end.

Definition sep : ascii := "/"%char.

(** [s.rfind(c)]: the index of the last [c] in [s], -1 when there is none. *)
Fixpoint rfind (c : ascii) (s : string) : Z :=
  match s with
  | EmptyString => (-1)%Z
  | String a s' =>
      let r := rfind c s' in
      if (0 <=? r)%Z then (r + 1)%Z
      else if Ascii.eqb a c then 0%Z else (-1)%Z
  end.

(** [s == sep * len(s)]: nothing but separators. *)
Fixpoint all_sep (s : string) : bool :=
  match s with
  | EmptyString => true
  | String a s' => Ascii.eqb a sep && all_sep s'
  end.

(** [s.rstrip(sep)] *)
Fixpoint rstrip_sep (s : string) : string :=
  match s with
  | EmptyString => EmptyString
  | String a s' =>
      match rstrip_sep s' with
      | EmptyString => if Ascii.eqb a sep then EmptyString else String a EmptyString
      | t => String a t
      end
  end.

(** [os.path.dirname(p)] *)
Definition dirname (p : string) : string :=
  let i := (rfind sep p + 1)%Z in
  let head := substring 0 (Z.to_nat i) p in
  if negb (String.eqb head "") && negb (all_sep head)
  then rstrip_sep head
  else head.

(** [os.path.join(a, b)] *)
Definition join (a b : string) : string :=
  if startswith (String sep "") b then b
  else if String.eqb a "" || endswith (String sep "") a then (a ++ b)%string
  else (a ++ String sep "" ++ b)%string.

(** [get_savepath], the answer typed at its prompt as second argument. *)
Definition get_savepath (fp sp_filename : string) : string :=
  if Nat.eqb (String.length sp_filename) 0
  then join (dirname fp) "exportedSurvival_forPrism.csv"
  else
    let sp_filename :=
      if negb (endswith ".csv" sp_filename)
      then (sp_filename ++ ".csv")%string
      else sp_filename in
    join (dirname fp) sp_filename.

(** [filter_sex], the answer typed at its prompt as argument. *)
Definition filter_sex (sexFilter : string) : option string :=
  if Nat.eqb (String.length sexFilter) 0 then None else Some sexFilter.

(** [main] with the file chosen in the dialog, the two typed answers and the
    table [load_data] returns as arguments; the result is the path and the
    table handed to [save_newData]. *)
Definition main (fp sp_filename sexFilter : string) (datatable : DataFrame)
  : result (string * DataFrame) :=
  let sp := get_savepath fp sp_filename in
  let sf := filter_sex sexFilter in
  tables <- filter_datatable datatable sf ;;
  let '(lowdata, middata, highdata) := tables in
  newdatatable <- convert_datatable lowdata middata highdata ;;
  Ok (sp, newdatatable).

(** ** The cells the script reads *)

(** The labels under which the script reads a row: temp, exclude, sex when a
    sex is selected, and the day columns the filter keeps. *)
Definition is_read (wormSex : option string) (name : string) : bool :=
  String.eqb name "temp" || String.eqb name "exclude" ||
  match wormSex with
  | Some _ => String.eqb name "sex"
  | None => false
  end ||
  (startswith "Day" name && no_eggs name).

(** Two rows hold the same under every label that is read. *)
Definition same_read_cells (cols : list string) (wormSex : option string)
  (r r' : nat * list cell) : Prop :=
  forall name, is_read wormSex name = true ->
    cell_of cols name r = cell_of cols name r'.

(** Two sets of rows under the labels temp, sex, eggs_laid, note, Day1: they
    differ in the index labels, the sex, the egg counts and the notes. *)
Definition notes_rows_a : list (nat * list cell) :=
  [ (0, [num 23; CStr "F"; num 40; CStr "ok"; num 2]);
    (1, [num 30; CStr "M"; num 12; CNaN; num 1]) ].

Definition notes_rows_b : list (nat * list cell) :=
  [ (7, [num 23; CStr "M"; CNaN; CStr "repeat"; num 2]);
    (9, [num 30; CNaN; num 0; CStr "late"; num 1]) ].

(** The day columns alone of the mid and the high table of [assay_table]. *)
Definition assay_mid_days : DataFrame :=
  mkDF ["Day1"; "Day2"] [ (2, [CNaN; num 1]) ].

Definition assay_high_days : DataFrame :=
  mkDF ["Day1"; "Day2"]
       [ (3, [CNum (1 # 2); CNum (3 # 2)]); (4, [CNum (3 # 4); num 0]) ].

(** The table a configuration holds, none after a failure. *)
Definition table_of (c : config) : option DataFrame :=
  match c with
  | Enter _ _ ndt => Some ndt
  | Loop _ _ _ ndt => Some ndt
  | Halt (Ok ndt) => Some ndt
  | Halt (Raise _) => None
  end.

(** Three one-column tables: a negative sum, a whole sum and a sum below 1. *)
Definition minus_low : DataFrame := mkDF ["Day1"] [ (0, [num (-3)]) ].
Definition half_high : DataFrame := mkDF ["Day1"] [ (2, [CNum (1 # 2)]) ].

(** A mid table without the day column. *)
Definition no_day_mid : DataFrame := mkDF ["Day2"] [ (1, [num 2]) ].

(** ** Whole counts *)






(** A table whose day columns are misnamed or hold egg counts. *)
Definition misnamed_table : DataFrame :=
  mkDF ["temp"; "day1"; "Day2_eggs"]
       [ (0, [num 23; num 4; num 9]); (1, [num 30; num 1; num 7]) ].

(** A table at temperatures the script does not know, one row excluded, with
    text in its day column. *)
Definition other_temps_table : DataFrame :=
  mkDF ["temp"; "exclude"; "Day1"]
       [ (0, [num 25; num 0; CStr "three"]);
         (1, [num 23; num 1; num 4]);
         (2, [CNaN; num 0; num 2]) ].


(** * Properties *)

(** ** The result monad and the loops *)

Lemma bind_Ok_inv {A B} (r : result A) (k : A -> result B) (b : B) :
  bind r k = Ok b -> exists a, r = Ok a /\ k a = Ok b.
Proof.
  destruct r as [a | e]; simpl; intros H; [eauto | discriminate].
Qed.

(** A loop that appends the elements passing a test computes a filter. *)
Lemma for_each_collect {A} (p : A -> bool) (xs acc : list A) :
  for_each xs (fun x acc => if p x then Ok (acc ++ [x]) else Ok acc) acc
  = Ok (acc ++ filter p xs).
Proof.
  revert acc; induction xs as [| x xs IH]; intros acc; simpl.
  - now rewrite app_nil_r.
  - destruct (p x); simpl; rewrite IH; [| reflexivity].
    now rewrite <- app_assoc.
Qed.

Lemma for_each_skip {A} (q : A -> bool) (xs acc : list A) :
  for_each xs (fun x acc => if q x then Ok acc else Ok (acc ++ [x])) acc
  = Ok (acc ++ filter (fun x => negb (q x)) xs).
Proof.
  revert acc; induction xs as [| x xs IH]; intros acc; simpl.
  - now rewrite app_nil_r.
  - destruct (q x); simpl; rewrite IH; [reflexivity |].
    now rewrite <- app_assoc.
Qed.

Lemma collect_columnNames_eq (datatable : DataFrame) :
  collect_columnNames datatable = Ok (filter no_eggs (columns datatable)).
Proof.
  unfold collect_columnNames, keys.
  now rewrite for_each_skip.
Qed.

Lemma collect_dayNames_eq (lowdata : DataFrame) :
  collect_dayNames lowdata = Ok (day_columns lowdata).
Proof.
  unfold collect_dayNames, day_columns, keys.
  now rewrite for_each_collect.
Qed.

(** ** Strings *)

Lemma startswith_prefix (p s : string) :
  startswith p s = true <-> exists t, s = (p ++ t)%string.
Proof.
  revert s; induction p as [| a p IH]; intros s; simpl.
  - split; [intros _; now exists s | reflexivity].
  - destruct s as [| b s].
    + split; [discriminate | intros [t H]; discriminate].
    + rewrite andb_true_iff, Ascii.eqb_eq, IH. split.
      * intros [-> [t ->]]. now exists t.
      * intros [t H]. injection H as -> ->. split; [reflexivity | now exists t].
Qed.

Lemma str_in_contains (needle hay : string) :
  str_in needle hay = true <-> contains needle hay.
Proof.
  unfold contains.
  induction hay as [| b hay IH]; simpl.
  - rewrite orb_false_r, startswith_prefix. split.
    + intros [t H]. now exists ""%string, t.
    + intros [pre [post H]]. destruct pre; [now exists post | discriminate].
  - rewrite orb_true_iff, startswith_prefix, IH. split.
    + intros [[t H] | [pre [post H]]].
      * now exists ""%string, t.
      * exists (String b pre), post. simpl. now rewrite H.
    + intros [pre [post H]]. destruct pre as [| c pre]; simpl in H.
      * left. now exists post.
      * right. injection H as _ H. now exists pre, post.
Qed.

Lemma str_last_spec (s t : string) :
  str_last s = Ok t <->
  exists pre a, s = (pre ++ String a "")%string /\ t = String a "".
Proof.
  revert t; induction s as [| b s IH]; intros t; simpl.
  - split; [discriminate |].
    intros [pre [a [H _]]]. destruct pre; discriminate.
  - destruct s as [| c s].
    + split.
      * intros H. injection H as <-. now exists ""%string, b.
      * intros [pre [a [H ->]]]. destruct pre as [| x pre]; simpl in H.
        -- now injection H as ->.
        -- injection H as _ H. destruct pre; discriminate.
    + rewrite IH. split.
      * intros [pre [a [H ->]]]. exists (String b pre), a. simpl. now rewrite H.
      * intros [pre [a [H ->]]]. destruct pre as [| x pre]; simpl in H.
        -- discriminate.
        -- injection H as _ H. now exists pre, a.
Qed.

Lemma str_last_nonempty (b : ascii) (s : string) :
  exists a, str_last (String b s) = Ok (String a "").
Proof.
  revert b; induction s as [| c s IH]; intros b.
  - now exists b.
  - destruct (IH c) as [a H]. exists a. simpl in *. exact H.
Qed.

Lemma str_last_day (day : string) :
  startswith "Day" day = true -> exists a, str_last day = Ok (String a "").
Proof.
  intros H. destruct day as [| b s]; [discriminate | apply str_last_nonempty].
Qed.

Lemma last_char_day (day : string) :
  startswith "Day" day = true -> str_last day = Ok (last_char day).
Proof.
  intros H. destruct (str_last_day day H) as [a Ha].
  unfold last_char. now rewrite Ha.
Qed.

(** ** Column labels *)

Lemma position_In (name : string) (cols : list string) :
  In name cols -> exists j, position name cols = Some j.
Proof.
  induction cols as [| c cols IH]; simpl; [tauto |].
  intros [-> | H].
  - rewrite String.eqb_refl. now exists 0.
  - destruct (String.eqb c name); [now exists 0 |].
    destruct (IH H) as [j ->]. now exists (S j).
Qed.

Lemma position_nth (name : string) (cols : list string) (j : nat) :
  position name cols = Some j -> nth_error cols j = Some name.
Proof.
  revert j; induction cols as [| c cols IH]; intros j; simpl; [discriminate |].
  destruct (String.eqb c name) eqn:E.
  - apply String.eqb_eq in E. intros H. injection H as <-. now subst.
  - destruct (position name cols) as [i |]; simpl; [| discriminate].
    intros H. injection H as <-. now apply IH.
Qed.

Lemma position_Some_In (name : string) (cols : list string) (j : nat) :
  position name cols = Some j -> In name cols.
Proof.
  intros H. eapply nth_error_In, position_nth, H.
Qed.

Lemma has_column_In (name : string) (df : DataFrame) :
  has_column name df = true <-> In name (columns df).
Proof.
  unfold has_column. split.
  - destruct (position name (columns df)) eqn:E; [| discriminate].
    intros _. eapply position_Some_In, E.
  - intros H. now destruct (position_In _ _ H) as [j ->].
Qed.

Lemma positions_incl (names cols : list string) :
  incl names cols -> exists js, positions names cols = Ok js.
Proof.
  induction names as [| n names IH]; intros H; simpl; [now exists [] |].
  destruct (position_In n cols) as [j ->]; [apply H; now left |].
  destruct IH as [js ->]; [intros x Hx; apply H; now right |].
  now exists (j :: js).
Qed.

Lemma positions_restrict (names cols : list string) (js : list nat)
  (r : nat * list cell) :
  positions names cols = Ok js -> project js r = restrict cols names r.
Proof.
  unfold project, restrict. intros H. f_equal.
  revert js H; induction names as [| n names IH]; intros js H; simpl in *.
  - now injection H as <-.
  - unfold lookup at 1, cell_of.
    destruct (position n cols) as [j |]; [| discriminate].
    apply bind_Ok_inv in H. destruct H as [js' [H1 H2]].
    injection H2 as <-. simpl. f_equal. now apply IH.
Qed.

(** ** Masks *)

Lemma select_rows_map {A} (f : A -> bool) (xs : list A) :
  select_rows xs (map f xs) = filter f xs.
Proof.
  induction xs as [| x xs IH]; simpl; [reflexivity |].
  now destruct (f x); rewrite IH.
Qed.

Lemma mask_and_map {A} (f g : A -> bool) (xs : list A) :
  mask_and (map f xs) (map g xs) = map (fun x => f x && g x) xs.
Proof.
  induction xs as [| x xs IH]; simpl; [reflexivity | now rewrite IH].
Qed.

Lemma ones_bool_map {A} (xs : list A) :
  ones_bool (List.length xs) = map (fun _ => true) xs.
Proof.
  unfold ones_bool. induction xs as [| x xs IH]; simpl; [reflexivity | now rewrite IH].
Qed.

Lemma series_eq_column (j : nat) (df : DataFrame) (v : cell) :
  series_eq (column_at j df) v = map (fun r => cell_eq (value_at j r) v) (rows df).
Proof.
  unfold series_eq, column_at. now rewrite map_map.
Qed.

Lemma series_ne_column (j : nat) (df : DataFrame) (v : cell) :
  series_ne (column_at j df) v
  = map (fun r => negb (cell_eq (value_at j r) v)) (rows df).
Proof.
  unfold series_ne, column_at. now rewrite map_map.
Qed.

(** ** The filter in closed form *)

(** The sex mask of the code is the specification's test, row by row. *)
Lemma sexIDX_eq (datatable : DataFrame) (wormSex : option string) :
  (wormSex <> None -> In "sex" (columns datatable)) ->
  match wormSex with
  | Some w => sex <- getattr datatable "sex" ;; Ok (series_eq sex (CStr w))
  | None => Ok (ones_bool (len datatable))
  end = Ok (map (sex_matches (columns datatable) wormSex) (rows datatable)).
Proof.
  intros H. destruct wormSex as [w |].
  - destruct (position_In "sex" (columns datatable)) as [j Hj]; [now apply H |].
    unfold getattr, sex_matches, cell_of. rewrite Hj. simpl.
    now rewrite series_eq_column.
  - unfold len. now rewrite ones_bool_map.
Qed.

Lemma keepIDX_eq (datatable : DataFrame) :
  (if has_column "exclude" datatable
   then exclude <- getattr datatable "exclude" ;; Ok (series_ne exclude (num 1))
   else Ok (ones_bool (len datatable)))
  = Ok (map (not_excluded (columns datatable)) (rows datatable)).
Proof.
  unfold has_column, getattr, not_excluded, cell_of.
  destruct (position "exclude" (columns datatable)) as [j |]; simpl.
  - now rewrite series_ne_column.
  - unfold len. now rewrite ones_bool_map.
Qed.

Lemma temp_eq (datatable : DataFrame) (cond : Z) :
  In "temp" (columns datatable) ->
  (temp <- getattr datatable "temp" ;; Ok (series_eq temp (num cond)))
  = Ok (map (temp_is (columns datatable) cond) (rows datatable)).
Proof.
  intros H. destruct (position_In _ _ H) as [j Hj].
  unfold getattr, temp_is, cell_of. rewrite Hj. simpl.
  now rewrite series_eq_column.
Qed.

Lemma filtered_eq (datatable : DataFrame) (wormSex : option string) (cond : Z) :
  getitem_cols
    (getitem_mask datatable
       (mask_and
          (mask_and (map (sex_matches (columns datatable) wormSex) (rows datatable))
                    (map (not_excluded (columns datatable)) (rows datatable)))
          (map (temp_is (columns datatable) cond) (rows datatable))))
    (filter no_eggs (columns datatable))
  = Ok (spec_filtered datatable wormSex cond).
Proof.
  rewrite !mask_and_map.
  unfold getitem_cols, getitem_mask; simpl.
  rewrite select_rows_map.
  destruct (positions_incl (filter no_eggs (columns datatable)) (columns datatable))
    as [js Hjs]; [apply incl_filter |].
  rewrite Hjs. simpl. unfold spec_filtered. do 2 f_equal.
  apply map_ext. intros r. now apply positions_restrict.
Qed.

(** What [filter_datatable] returns, in every case. *)
Lemma filter_datatable_eq (datatable : DataFrame) (wormSex : option string) :
  filter_datatable datatable wormSex =
  if match wormSex with Some _ => negb (has_column "sex" datatable) | None => false end
  then Raise (AttributeError "sex")
  else if has_column "temp" datatable
  then Ok (spec_filtered datatable wormSex lowTemp,
           spec_filtered datatable wormSex midTemp,
           spec_filtered datatable wormSex highTemp)
  else Raise (AttributeError "temp").
Proof.
  unfold filter_datatable.
  rewrite collect_columnNames_eq. cbn [bind].
  destruct wormSex as [w |].
  - destruct (has_column "sex" datatable) eqn:Hsex; cbn [negb].
    + rewrite (sexIDX_eq datatable (Some w));
        [| intros _; now apply has_column_In].
      cbn [bind]. rewrite keepIDX_eq. cbn [bind].
      destruct (has_column "temp" datatable) eqn:Htemp.
      * apply has_column_In in Htemp.
        rewrite !temp_eq by assumption. cbn [bind].
        now rewrite !filtered_eq.
      * unfold has_column in Htemp. unfold getattr at 1.
        now destruct (position "temp" (columns datatable)).
    + unfold has_column in Hsex. unfold getattr at 1.
      now destruct (position "sex" (columns datatable)).
  - rewrite keepIDX_eq.
    rewrite (sexIDX_eq datatable None) by congruence. cbn [bind].
    destruct (has_column "temp" datatable) eqn:Htemp.
    + apply has_column_In in Htemp.
      rewrite !temp_eq by assumption. cbn [bind].
      now rewrite !filtered_eq.
    + unfold has_column in Htemp. unfold getattr at 1.
      now destruct (position "temp" (columns datatable)).
Qed.

(** ** The output table while it is built *)

Lemma relabel_length (vs : list (list cell)) :
  List.length (relabel vs) = List.length vs.
Proof.
  unfold relabel. rewrite length_combine, length_seq. apply Nat.min_id.
Qed.

Lemma combine_app_same {A B} (xs xs' : list A) (ys ys' : list B) :
  List.length xs = List.length ys ->
  combine (xs ++ xs') (ys ++ ys') = combine xs ys ++ combine xs' ys'.
Proof.
  revert ys; induction xs as [| x xs IH]; intros [| y ys] H; simpl in *;
    try discriminate; [reflexivity |].
  f_equal. apply IH. now injection H.
Qed.

Lemma relabel_snoc (vs : list (list cell)) (v : list cell) :
  relabel (vs ++ [v]) = relabel vs ++ [(List.length vs, v)].
Proof.
  unfold relabel. rewrite length_app. simpl List.length.
  rewrite seq_app. simpl seq.
  rewrite combine_app_same by now rewrite length_seq.
  reflexivity.
Qed.

Lemma relabel_label (vs : list (list cell)) (r : nat * list cell) :
  In r (relabel vs) -> fst r < List.length vs.
Proof.
  destruct r as [k v]. intros H. apply in_combine_l in H.
  apply in_seq in H. simpl. lia.
Qed.


Lemma relabel_labels (vs : list (list cell)) :
  map fst (relabel vs) = seq 0 (List.length vs).
Proof.
  unfold relabel. generalize 0.
  induction vs as [| v vs IH]; intros n; simpl; [reflexivity | now rewrite IH].
Qed.

(** Writing under a label the index does not hold yet appends a row. *)
Lemma set_row_fresh (k : nat) (v : list cell) (rs : list (nat * list cell)) :
  (forall r, In r rs -> fst r <> k) -> set_row k v rs = rs ++ [(k, v)].
Proof.
  induction rs as [| [l r] rs IH]; intros H; simpl; [reflexivity |].
  destruct (Nat.eqb l k) eqn:E.
  - apply Nat.eqb_eq in E. exfalso. apply (H (l, r)); [now left | exact E].
  - rewrite IH; [reflexivity |]. intros x Hx. apply H. now right.
Qed.

Lemma loc_setitem_built (vs : list (list cell)) (v : list cell) :
  List.length v = 4 ->
  loc_setitem (built vs) (len (built vs)) v = Ok (built (vs ++ [v])).
Proof.
  intros Hv. unfold loc_setitem, built, len. simpl rows. simpl columns.
  rewrite Hv. simpl. rewrite relabel_length, relabel_snoc.
  rewrite set_row_fresh; [reflexivity |].
  intros r Hr. apply relabel_label in Hr. lia.
Qed.

Lemma phase_row_length (ph : phase) (t : string) :
  List.length (phase_row ph t) = 4.
Proof. now destruct ph. Qed.

(** An inner loop of [n] iterations appends [n] copies of its row. *)
Lemma for_range_built (day : string) (row : string -> list cell) (n : nat)
  (vs : list (list cell)) :
  (forall t, List.length (row t) = 4) ->
  startswith "Day" day = true ->
  for_range n
    (fun ndt => t <- str_last day ;; loc_setitem ndt (len ndt) (row t))
    (built vs)
  = Ok (built (vs ++ repeat (row (last_char day)) n)).
Proof.
  intros Hrow Hday.
  match goal with |- for_range _ ?b _ = _ => set (body := b) end.
  revert vs; induction n as [| n IH]; intros vs; simpl.
  - now rewrite app_nil_r.
  - unfold body at 1. rewrite (last_char_day day Hday). cbn [bind].
    rewrite loc_setitem_built by apply Hrow. cbn [bind].
    rewrite IH. now rewrite <- app_assoc.
Qed.

Lemma series_sum_total (s : Series) (q : Q) : series_sum s = Ok q -> q = total s.
Proof.
  revert q; induction s as [| c s IH]; intros q; simpl.
  - intros H. now injection H.
  - destruct c as [p | t |]; [| discriminate | apply IH].
    intros H. apply bind_Ok_inv in H. destruct H as [x [H1 H2]].
    injection H2 as <-. now rewrite (IH x H1).
Qed.

Lemma day_count_count (data : DataFrame) (day : string) (n : Z) :
  day_count data day = Ok n -> n = count data day.
Proof.
  unfold day_count, getitem, count, column_total.
  destruct (position day (columns data)) as [j |]; [| discriminate].
  cbn [bind]. intros H. apply bind_Ok_inv in H. destruct H as [q [H1 H2]].
  injection H2 as <-. now rewrite (series_sum_total _ _ H1).
Qed.

Lemma emit_rows_built (data : DataFrame) (day : string)
  (row : string -> list cell) (vs : list (list cell)) :
  (forall t, List.length (row t) = 4) ->
  startswith "Day" day = true ->
  emit_rows data day row (built vs)
  = (_ <- day_count data day ;;
     Ok (built (vs ++ repeat (row (last_char day)) (range_len (count data day))))).
Proof.
  intros Hrow Hday. unfold emit_rows.
  destruct (day_count data day) as [n | e] eqn:E; cbn [bind]; [| reflexivity].
  rewrite for_range_built by assumption.
  now rewrite (day_count_count _ _ _ E).
Qed.

(** The outer loop in closed form: the sums are evaluated day by day, and
    when none of them fails the table holds the blocks of the days in
    order. *)
Lemma expand_days_eq (lowdata middata highdata : DataFrame)
  (days : list string) (vs : list (list cell)) :
  Forall (fun day => startswith "Day" day = true) days ->
  for_each days
    (fun day newdatatable =>
       ndt1 <- emit_rows lowdata day low_row newdatatable ;;
       ndt2 <- emit_rows middata day mid_row ndt1 ;;
       emit_rows highdata day high_row ndt2)
    (built vs)
  = (_ <- check_days lowdata middata highdata days ;;
     Ok (built (vs ++ flat_map (day_block lowdata middata highdata) days))).
Proof.
  intros Hdays. revert vs. unfold check_days.
  induction Hdays as [| day days Hday Hdays IH]; intros vs; simpl.
  - now rewrite app_nil_r.
  - unfold check_day at 1.
    rewrite (emit_rows_built lowdata day low_row) by (reflexivity || assumption).
    destruct (day_count lowdata day) as [nl | e]; cbn [bind]; [| reflexivity].
    rewrite (emit_rows_built middata day mid_row) by (reflexivity || assumption).
    destruct (day_count middata day) as [nm | e]; cbn [bind]; [| reflexivity].
    rewrite (emit_rows_built highdata day high_row) by (reflexivity || assumption).
    destruct (day_count highdata day) as [nh | e]; cbn [bind]; [| reflexivity].
    rewrite IH. unfold day_block at 2. now rewrite <- !app_assoc.
Qed.

Lemma day_columns_start (df : DataFrame) :
  Forall (fun day => startswith "Day" day = true) (day_columns df).
Proof.
  apply Forall_forall. intros day H. now apply filter_In in H.
Qed.

Lemma convert_datatable_eq (lowdata middata highdata : DataFrame) :
  convert_datatable lowdata middata highdata
  = (_ <- check_days lowdata middata highdata (day_columns lowdata) ;;
     Ok (built (flat_map (day_block lowdata middata highdata)
                         (day_columns lowdata)))).
Proof.
  unfold convert_datatable. rewrite collect_dayNames_eq. cbn [bind].
  change empty_output with (built []).
  now rewrite expand_days_eq by apply day_columns_start.
Qed.

Lemma convert_datatable_Ok (lowdata middata highdata out : DataFrame) :
  convert_datatable lowdata middata highdata = Ok out ->
  out = built (flat_map (day_block lowdata middata highdata)
                        (day_columns lowdata)).
Proof.
  rewrite convert_datatable_eq. intros H.
  apply bind_Ok_inv in H. destruct H as [u [_ H]]. now injection H.
Qed.

(** ** The transition relation *)

Section ExpanderRuns.

Variables lowdata middata highdata : DataFrame.

Local Abbreviation step := (step lowdata middata highdata).
Local Abbreviation steps := (steps lowdata middata highdata).
Local Abbreviation day_body := (day_body lowdata middata highdata).

Lemma step_deterministic (c c1 c2 : config) :
  step c c1 -> step c c2 -> c1 = c2.
Proof.
  intros H1 H2.
  inversion H1; subst; inversion H2; subst; congruence.
Qed.

Lemma halt_stuck (r : result DataFrame) (c : config) : ~ step (Halt r) c.
Proof. intros H. inversion H. Qed.

Lemma steps_trans (c1 c2 c3 : config) :
  steps c1 c2 -> steps c2 c3 -> steps c1 c3.
Proof.
  induction 1 as [c | a b c Hab Hbc IH]; intros H; [exact H |].
  eapply steps_cons; [exact Hab | now apply IH].
Qed.

Lemma steps_one (c1 c2 : config) : step c1 c2 -> steps c1 c2.
Proof. intros H. eapply steps_cons; [exact H | apply steps_refl]. Qed.

(** Two runs from one configuration halt with the same result. *)
Lemma steps_halt_unique (c : config) (r1 r2 : result DataFrame) :
  steps c (Halt r1) -> steps c (Halt r2) -> r1 = r2.
Proof.
  intros H1. remember (Halt r1) as h eqn:Eh.
  induction H1 as [c | a b c Hab Hbc IH]; intros H2; subst.
  - inversion H2 as [| x y z Hxy Hyz]; subst; [congruence |].
    now apply halt_stuck in Hxy.
  - inversion H2 as [| x y z Hxy Hyz]; subst.
    + now apply halt_stuck in Hab.
    + rewrite (step_deterministic _ _ _ Hab Hxy) in *. now apply IH.
Qed.

Lemma loop_steps (day : string) (days : list string) (ph : phase) (k : nat)
  (ndt : DataFrame) :
  steps (Loop (day :: days) ph k ndt)
        (after_loop day days ph
           (for_range k (append_row day ph) ndt)).
Proof.
  revert ndt; induction k as [| k IH]; intros ndt; cbn [for_range].
  - apply steps_refl.
  - destruct (append_row day ph ndt) as [ndt' | e] eqn:E;
      cbn [bind after_loop].
    + eapply steps_cons; [apply step_append; exact E | apply IH].
    + apply steps_one. apply step_append_raise. exact E.
Qed.

Lemma enter_steps (day : string) (days : list string) (ph : phase)
  (ndt : DataFrame) :
  steps (Enter (day :: days) ph ndt)
        (after_loop day days ph
           (emit_rows (phase_data lowdata middata highdata ph) day
                      (phase_row ph) ndt)).
Proof.
  unfold emit_rows.
  destruct (day_count (phase_data lowdata middata highdata ph) day)
    as [n | e] eqn:E; cbn [bind].
  - eapply steps_cons; [apply step_count; exact E |]. apply loop_steps.
  - apply steps_one. apply step_count_raise. exact E.
Qed.

Lemma day_steps (day : string) (days : list string) (ndt : DataFrame) :
  steps (Enter (day :: days) Low ndt)
        (match day_body day ndt with
         | Ok ndt' => Enter days Low ndt'
         | Raise e => Halt (Raise e)
         end).
Proof.
  unfold day_body.
  eapply steps_trans; [apply enter_steps |]. simpl phase_data. simpl phase_row.
  destruct (emit_rows lowdata day low_row ndt) as [ndt1 | e]; cbn [bind after_loop];
    [| apply steps_refl].
  eapply steps_cons; [apply step_low_end |].
  eapply steps_trans; [apply enter_steps |]. simpl phase_data. simpl phase_row.
  destruct (emit_rows middata day mid_row ndt1) as [ndt2 | e]; cbn [bind after_loop];
    [| apply steps_refl].
  eapply steps_cons; [apply step_mid_end |].
  eapply steps_trans; [apply enter_steps |]. simpl phase_data. simpl phase_row.
  destruct (emit_rows highdata day high_row ndt2) as [ndt3 | e]; cbn [after_loop];
    [| apply steps_refl].
  apply steps_one. apply step_high_end.
Qed.

(** The loops run to the result the function computes. *)
Lemma run_steps (days : list string) (ndt : DataFrame) :
  steps (Enter days Low ndt) (Halt (for_each days day_body ndt)).
Proof.
  revert ndt; induction days as [| day days IH]; intros ndt; simpl.
  - apply steps_one. apply step_done.
  - eapply steps_trans; [apply day_steps |].
    destruct (day_body day ndt) as [ndt' | e]; cbn [bind];
      [apply IH | apply steps_refl].
Qed.

Lemma expands_convert :
  expands lowdata middata highdata (convert_datatable lowdata middata highdata).
Proof.
  unfold expands, convert_datatable.
  destruct (collect_dayNames lowdata) as [dayNames | e]; cbn [bind];
    [apply run_steps | reflexivity].
Qed.

Lemma expands_unique (r1 r2 : result DataFrame) :
  expands lowdata middata highdata r1 -> expands lowdata middata highdata r2 ->
  r1 = r2.
Proof.
  unfold expands.
  destruct (collect_dayNames lowdata) as [dayNames | e];
    [apply steps_halt_unique | congruence].
Qed.

End ExpanderRuns.

Lemma executes_pipeline (datatable : DataFrame) (wormSex : option string) :
  executes datatable wormSex (pipeline datatable wormSex).
Proof.
  unfold executes, pipeline.
  destruct (filter_datatable datatable wormSex) as [[[l m] h] | e]; cbn [bind];
    [apply expands_convert | reflexivity].
Qed.

Lemma executes_unique (datatable : DataFrame) (wormSex : option string)
  (r1 r2 : result DataFrame) :
  executes datatable wormSex r1 -> executes datatable wormSex r2 -> r1 = r2.
Proof.
  unfold executes.
  destruct (filter_datatable datatable wormSex) as [[[l m] h] | e];
    [apply expands_unique | congruence].
Qed.

(** ** The rows of the expanded table *)

Lemma day_block_rows (lowdata middata highdata : DataFrame) (day : string)
  (vals : list cell) :
  In vals (day_block lowdata middata highdata day) ->
  vals = low_row (last_char day) \/
  vals = mid_row (last_char day) \/
  vals = high_row (last_char day).
Proof.
  unfold day_block. rewrite !in_app_iff.
  intros [H | [H | H]]; apply repeat_spec in H; auto.
Qed.

Lemma built_rows (vs : list (list cell)) (r : nat * list cell) :
  In r (rows (built vs)) -> In (snd r) vs.
Proof.
  destruct r as [k v]. simpl. intros H. now apply in_combine_r in H.
Qed.

(** C5: on the two rows of the specification's example, with no sex filter,
    filter-then-expand yields four rows: for time 3 two rows with column 23
    set and one with column 30 set, for time 4 one row with column 23 set. *)
Theorem example_pipeline : pipeline example_table None = Ok example_output.
Proof. reflexivity. Qed.

(** C2: every row of the expanded table has exactly one of its three
    condition columns set to 1 and the other two empty. *)
Theorem output_rows_one_hot (lowdata middata highdata out : DataFrame) :
  convert_datatable lowdata middata highdata = Ok out ->
  forall r, In r (rows out) ->
    exists v, condition_values out r = Some v /\ exactly_one v.
Proof.
  intros H r Hr. apply convert_datatable_Ok in H. subst out.
  apply built_rows, in_flat_map in Hr. destruct Hr as [day [_ Hr]].
  apply day_block_rows in Hr.
  destruct r as [k vals]. simpl in Hr. unfold exactly_one.
  destruct Hr as [-> | [-> | ->]]; eexists; (split; [reflexivity |]); auto.
Qed.

Lemma output_rows_one_hot_example :
  Forall (fun r => exists v,
              condition_values example_output r = Some v /\ exactly_one v)
         (rows example_output).
Proof.
  apply Forall_forall.
  apply (output_rows_one_hot
           (spec_filtered example_table None lowTemp)
           (spec_filtered example_table None midTemp)
           (spec_filtered example_table None highTemp)).
  reflexivity.
Defined.

Ltac solve_NoDup := repeat constructor; simpl; intuition discriminate.

Lemma label_from_app (n : nat) (xs ys : list (list cell)) :
  label_from n (xs ++ ys)
  = label_from n xs ++ label_from (n + List.length xs) ys.
Proof.
  unfold label_from. rewrite length_app, seq_app.
  apply combine_app_same. now rewrite length_seq.
Qed.

Lemma label_from_rows (n : nat) (vs : list (list cell)) (r : nat * list cell) :
  In r (label_from n vs) -> In (snd r) vs.
Proof.
  destruct r as [k v]. intros H. now apply in_combine_r in H.
Qed.

(** The labelled rows fall into one block per day, and a block carries the
    last character of its day in the time column. *)
Lemma blocks_of_days (lowdata middata highdata : DataFrame)
  (days : list string) (n : nat) :
  Forall (fun day => startswith "Day" day = true) days ->
  exists blocks,
    label_from n (flat_map (day_block lowdata middata highdata) days)
    = List.concat blocks /\
    Forall2 (fun day block =>
               exists pre a,
                 day = (pre ++ String a "")%string /\
                 forall r, In r block ->
                   cell_of (columns empty_output) "time" r
                   = Some (CStr (String a "")))
            days blocks.
Proof.
  intros Hdays. revert n.
  induction Hdays as [| day days Hday Hdays IH]; intros n; simpl.
  - exists []. split; [reflexivity | constructor].
  - rewrite label_from_app.
    destruct (IH (n + List.length (day_block lowdata middata highdata day)))
      as [blocks [Hcat Hall]].
    exists (label_from n (day_block lowdata middata highdata day) :: blocks).
    split; [simpl; now rewrite Hcat |].
    constructor; [| exact Hall].
    pose proof (last_char_day day Hday) as Hlast.
    destruct (str_last_day day Hday) as [a Ha].
    assert (Hc : last_char day = String a "") by congruence.
    apply str_last_spec in Ha. destruct Ha as [pre [a' [Hpre Ha']]].
    injection Ha' as <-.
    exists pre, a. split; [exact Hpre |].
    intros [k vals] Hr. apply label_from_rows, day_block_rows in Hr.
    simpl in Hr. rewrite Hc in Hr.
    now destruct Hr as [-> | [-> | ->]].
Qed.

(** C8: the expanded table is made of one block of rows per day column, and
    every row of a day's block has, as its time field, the last character of
    the day column's name, a single character. *)
Theorem time_is_last_character (lowdata middata highdata out : DataFrame) :
  convert_datatable lowdata middata highdata = Ok out ->
  exists blocks,
    rows out = List.concat blocks /\
    Forall2 (fun day block =>
               exists pre a,
                 day = (pre ++ String a "")%string /\
                 forall r, In r block ->
                   cell_of (columns out) "time" r = Some (CStr (String a "")))
            (day_columns lowdata) blocks.
Proof.
  intros H. apply convert_datatable_Ok in H. subst out.
  apply (blocks_of_days lowdata middata highdata (day_columns lowdata) 0).
  apply day_columns_start.
Qed.

Lemma time_is_last_character_example :
  exists blocks,
    rows assay_output = List.concat blocks /\
    Forall2 (fun day block =>
               exists pre a,
                 day = (pre ++ String a "")%string /\
                 forall r, In r block ->
                   cell_of (columns assay_output) "time" r
                   = Some (CStr (String a "")))
            (day_columns assay_low) blocks.
Proof.
  apply (time_is_last_character assay_low assay_mid assay_high assay_output).
  reflexivity.
Defined.



(** ** The filtered tables *)

Lemma filter_datatable_Ok (raw : DataFrame) (wormSex : option string)
  (lowdata middata highdata : DataFrame) :
  filter_datatable raw wormSex = Ok (lowdata, middata, highdata) ->
  lowdata = spec_filtered raw wormSex lowTemp /\
  middata = spec_filtered raw wormSex midTemp /\
  highdata = spec_filtered raw wormSex highTemp.
Proof.
  rewrite filter_datatable_eq.
  destruct (match wormSex with
            | Some _ => negb (has_column "sex" raw)
            | None => false
            end); [discriminate |].
  destruct (has_column "temp" raw); [| discriminate].
  intros H. injection H as <- <- <-. auto.
Qed.

Lemma not_excluded_excluded (cols : list string) (r : nat * list cell) :
  excluded cols r = true -> not_excluded cols r = false.
Proof.
  unfold excluded, not_excluded.
  destruct (cell_of cols "exclude" r); [now intros -> | discriminate].
Qed.

Lemma spec_keeps_excluded (cols : list string) (wormSex : option string)
  (cond : Z) (r : nat * list cell) :
  excluded cols r = true -> spec_keeps cols wormSex cond r = false.
Proof.
  intros H. unfold spec_keeps. rewrite (not_excluded_excluded _ _ H).
  now rewrite andb_false_r.
Qed.

(** Taking an excluded row out of the raw table changes no filtered table. *)
Lemma spec_filtered_drop (cols : list string) (pre post : list (nat * list cell))
  (r : nat * list cell) (wormSex : option string) (cond : Z) :
  excluded cols r = true ->
  spec_filtered (mkDF cols (pre ++ r :: post)) wormSex cond
  = spec_filtered (mkDF cols (pre ++ post)) wormSex cond.
Proof.
  intros H. unfold spec_filtered. simpl columns. simpl rows.
  rewrite !filter_app. simpl filter.
  now rewrite (spec_keeps_excluded _ _ _ _ H).
Qed.

Lemma filter_datatable_drop (cols : list string)
  (pre post : list (nat * list cell)) (r : nat * list cell)
  (wormSex : option string) :
  excluded cols r = true ->
  filter_datatable (mkDF cols (pre ++ r :: post)) wormSex
  = filter_datatable (mkDF cols (pre ++ post)) wormSex.
Proof.
  intros H. rewrite !filter_datatable_eq.
  unfold has_column. simpl columns.
  now rewrite !(spec_filtered_drop _ _ _ _ _ _ H).
Qed.

(** C3: each filtered table holds exactly the rows of the raw table where
    the sex column equals the selector (or no selector was given), the
    exclude column is absent or not 1, and the temp column equals the
    table's temperature; a row with exclude == 1 contributes nothing: taking
    it out of the raw table changes neither the filtered tables nor the
    expanded table. *)
Theorem filter_keeps_matching_rows (raw : DataFrame) (wormSex : option string)
  (lowdata middata highdata : DataFrame) :
  NoDup (columns raw) ->
  filter_datatable raw wormSex = Ok (lowdata, middata, highdata) ->
  (forall cond data,
     (cond, data) = (lowTemp, lowdata) \/
     (cond, data) = (midTemp, middata) \/
     (cond, data) = (highTemp, highdata) ->
     rows data
     = map (restrict (columns raw) (columns data))
           (filter (fun r => sex_matches (columns raw) wormSex r &&
                             not_excluded (columns raw) r &&
                             temp_is (columns raw) cond r)
                   (rows raw))) /\
  (forall pre r post,
     rows raw = pre ++ r :: post ->
     excluded (columns raw) r = true ->
     filter_datatable (mkDF (columns raw) (pre ++ post)) wormSex
     = Ok (lowdata, middata, highdata) /\
     pipeline (mkDF (columns raw) (pre ++ post)) wormSex = pipeline raw wormSex).
Proof.
  intros _ H. split.
  - apply filter_datatable_Ok in H. destruct H as [-> [-> ->]].
    intros cond data [E | [E | E]]; injection E as -> ->; reflexivity.
  - intros pre r post Hrows Hex.
    destruct raw as [cols rs]. simpl in Hrows, Hex. subst rs. simpl columns.
    rewrite <- H. unfold pipeline.
    now rewrite !(filter_datatable_drop _ _ _ _ _ Hex).
Qed.

Lemma filter_keeps_matching_rows_example :
  (forall cond data,
     (cond, data) = (lowTemp, assay_low) \/
     (cond, data) = (midTemp, assay_mid) \/
     (cond, data) = (highTemp, assay_high) ->
     rows data
     = map (restrict (columns assay_table) (columns data))
           (filter (fun r => sex_matches (columns assay_table) None r &&
                             not_excluded (columns assay_table) r &&
                             temp_is (columns assay_table) cond r)
                   (rows assay_table))) /\
  pipeline assay_table_kept None = pipeline assay_table None.
Proof.
  destruct (filter_keeps_matching_rows assay_table None
              assay_low assay_mid assay_high) as [Hrows Hdrop];
    [solve_NoDup | reflexivity |].
  split; [exact Hrows |].
  apply (Hdrop [(0, [num 23; CStr "F"; num 0; num 40; num 1; num 2])]
               (1, [num 23; CStr "M"; num 1; num 12; num 5; num 5])
               [(2, [num 30; CStr "F"; num 0; CNaN; CNaN; num 1]);
                (3, [num 37; CStr "F"; CNaN; num 7; CNum (1 # 2); CNum (3 # 2)]);
                (4, [num 37; CStr "M"; num 0; num 3; CNum (3 # 4); num 0])]);
    reflexivity.
Defined.

Lemma no_eggs_contains (cn : string) : no_eggs cn = true -> ~ contains "eggs" cn.
Proof.
  unfold no_eggs. intros H Hc. apply str_in_contains in Hc.
  rewrite Hc in H. discriminate.
Qed.

Lemma spec_filtered_columns (raw : DataFrame) (wormSex : option string) (cond : Z) :
  columns (spec_filtered raw wormSex cond) = filter no_eggs (columns raw).
Proof. reflexivity. Qed.

Lemma convert_datatable_columns (lowdata middata highdata out : DataFrame) :
  convert_datatable lowdata middata highdata = Ok out ->
  columns out = ["time"; "23"; "30"; "37"].
Proof.
  intros H. apply convert_datatable_Ok in H. now subst out.
Qed.

(** C6: no column whose name contains the substring eggs is in any of the
    three filtered tables, nor in the expanded table. *)
Theorem eggs_columns_dropped (raw : DataFrame) (wormSex : option string)
  (lowdata middata highdata : DataFrame) :
  filter_datatable raw wormSex = Ok (lowdata, middata, highdata) ->
  (forall cn,
     In cn (columns lowdata) \/ In cn (columns middata) \/ In cn (columns highdata) ->
     ~ contains "eggs" cn) /\
  (forall out cn,
     convert_datatable lowdata middata highdata = Ok out ->
     In cn (columns out) -> ~ contains "eggs" cn).
Proof.
  intros H. apply filter_datatable_Ok in H. destruct H as [-> [-> ->]]. split.
  - intros cn. rewrite !spec_filtered_columns.
    intros H. apply no_eggs_contains.
    assert (Hin : In cn (filter no_eggs (columns raw))) by tauto.
    now apply filter_In in Hin.
  - intros out cn H Hin. apply convert_datatable_columns in H.
    rewrite H in Hin. apply no_eggs_contains.
    simpl in Hin. now destruct Hin as [<- | [<- | [<- | [<- | []]]]].
Qed.

Lemma eggs_columns_dropped_example :
  (forall cn,
     In cn (columns assay_low) \/ In cn (columns assay_mid) \/ In cn (columns assay_high) ->
     ~ contains "eggs" cn) /\
  (forall out cn,
     convert_datatable assay_low assay_mid assay_high = Ok out ->
     In cn (columns out) -> ~ contains "eggs" cn).
Proof.
  apply (eggs_columns_dropped assay_table None). reflexivity.
Defined.

(** ** Reading the day columns *)

Lemma series_sum_Raise (s : Series) (e : error) :
  series_sum s = Raise e -> e = NotSummable.
Proof.
  induction s as [| c s IH]; simpl; [discriminate |].
  destruct c as [q | t |]; [| congruence | exact IH].
  destruct (series_sum s) as [x | e']; simpl; [discriminate |].
  intros H. injection H as <-. now apply IH.
Qed.

Lemma day_count_Raise (data : DataFrame) (day : string) (e : error) :
  day_count data day = Raise e ->
  (e = KeyError day /\ ~ In day (columns data)) \/ e = NotSummable.
Proof.
  unfold day_count, getitem.
  destruct (position day (columns data)) as [j |] eqn:E; cbn [bind].
  - destruct (series_sum (column_at j data)) as [q | e'] eqn:Es; cbn [bind];
      [discriminate |].
    intros H. injection H as <-. right. eapply series_sum_Raise, Es.
  - intros H. injection H as <-. left. split; [reflexivity |].
    intros Hin. destruct (position_In _ _ Hin) as [j Hj]. congruence.
Qed.

(** A sum the expansion fails on is a sum of one of its days. *)
Lemma check_days_Raise (lowdata middata highdata : DataFrame)
  (days : list string) (e : error) :
  check_days lowdata middata highdata days = Raise e ->
  exists day, In day days /\
    (day_count lowdata day = Raise e \/
     day_count middata day = Raise e \/
     day_count highdata day = Raise e).
Proof.
  unfold check_days.
  induction days as [| day days IH]; simpl; [discriminate |].
  unfold check_day at 1.
  destruct (day_count lowdata day) as [nl | el] eqn:El; cbn [bind];
    [| intros H; injection H as <-; exists day; auto].
  destruct (day_count middata day) as [nm | em] eqn:Em; cbn [bind];
    [| intros H; injection H as <-; exists day; auto].
  destruct (day_count highdata day) as [nh | eh] eqn:Eh; cbn [bind];
    [| intros H; injection H as <-; exists day; auto].
  intros H. destruct (IH H) as [d [Hd Hr]]. exists d. auto.
Qed.

Lemma check_days_Ok (lowdata middata highdata : DataFrame) (days : list string) :
  (forall day e, In day days ->
     day_count lowdata day <> Raise e /\
     day_count middata day <> Raise e /\
     day_count highdata day <> Raise e) ->
  check_days lowdata middata highdata days = Ok tt.
Proof.
  intros H.
  destruct (check_days lowdata middata highdata days) as [[] | e] eqn:E;
    [reflexivity |].
  apply check_days_Raise in E. destruct E as [day [Hday E]].
  destruct (H day e Hday) as [Hl [Hm Hh]]. tauto.
Qed.

Lemma convert_datatable_Raise (lowdata middata highdata : DataFrame) (e : error) :
  convert_datatable lowdata middata highdata = Raise e ->
  exists day, In day (day_columns lowdata) /\
    (day_count lowdata day = Raise e \/
     day_count middata day = Raise e \/
     day_count highdata day = Raise e).
Proof.
  rewrite convert_datatable_eq. intros H. apply check_days_Raise.
  destruct (check_days lowdata middata highdata (day_columns lowdata));
    simpl in H; [discriminate | congruence].
Qed.

Lemma day_columns_In (df : DataFrame) (day : string) :
  In day (day_columns df) -> In day (columns df).
Proof.
  intros H. now apply filter_In in H.
Qed.

(** C10: the three tables the filter returns have one and the same column
    list, the raw table's columns without those containing eggs; so every
    day column of the low table is a column of the mid and of the high
    table, and the expansion of the filtered tables never fails on a missing
    day column. *)
Theorem filtered_tables_aligned (raw : DataFrame) (wormSex : option string)
  (lowdata middata highdata : DataFrame) :
  NoDup (columns raw) ->
  filter_datatable raw wormSex = Ok (lowdata, middata, highdata) ->
  columns lowdata = filter (fun cn => negb (str_in "eggs" cn)) (columns raw) /\
  columns middata = columns lowdata /\
  columns highdata = columns lowdata /\
  (forall day, In day (day_columns lowdata) ->
     In day (columns middata) /\ In day (columns highdata)) /\
  (forall key, convert_datatable lowdata middata highdata <> Raise (KeyError key)).
Proof.
  intros _ H. apply filter_datatable_Ok in H. destruct H as [-> [-> ->]].
  rewrite !spec_filtered_columns.
  assert (Hin : forall day cond,
             In day (day_columns (spec_filtered raw wormSex lowTemp)) ->
             In day (columns (spec_filtered raw wormSex cond))).
  { intros day cond Hd. apply day_columns_In in Hd. exact Hd. }
  split; [reflexivity |]. split; [reflexivity |]. split; [reflexivity |].
  split; [intros day Hd; split; exact (Hin day lowTemp Hd) |].
  intros key Hk. apply convert_datatable_Raise in Hk.
  destruct Hk as [day [Hday Hk]].
  destruct Hk as [Hk | [Hk | Hk]]; apply day_count_Raise in Hk;
    destruct Hk as [[_ Hk] | Hk]; try discriminate;
    apply Hk; exact (Hin day _ Hday).
Qed.

Lemma filtered_tables_aligned_example :
  columns assay_low = filter (fun cn => negb (str_in "eggs" cn)) (columns assay_table) /\
  columns assay_mid = columns assay_low /\
  columns assay_high = columns assay_low /\
  (forall day, In day (day_columns assay_low) ->
     In day (columns assay_mid) /\ In day (columns assay_high)) /\
  (forall key, convert_datatable assay_low assay_mid assay_high <> Raise (KeyError key)).
Proof.
  apply (filtered_tables_aligned assay_table None);
    [solve_NoDup | reflexivity].
Defined.

(** ** Tables without rows *)

Lemma flat_map_empty {A B} (f : A -> list B) (xs : list A) :
  (forall x, In x xs -> f x = []) -> flat_map f xs = [].
Proof.
  induction xs as [| x xs IH]; intros H; simpl; [reflexivity |].
  rewrite (H x) by now left. apply IH. intros y Hy. apply H. now right.
Qed.

Lemma day_count_empty (names : list string) (day : string) :
  In day names -> day_count (mkDF names []) day = Ok 0%Z.
Proof.
  intros H. destruct (position_In _ _ H) as [j Hj].
  unfold day_count, getitem. simpl columns. now rewrite Hj.
Qed.

Lemma count_empty (names : list string) (day : string) :
  count (mkDF names []) day = 0%Z.
Proof.
  unfold count, column_total. simpl columns.
  now destruct (position day names).
Qed.

(** Three tables without rows expand to the table without rows. *)
Lemma convert_datatable_empty (names : list string) :
  convert_datatable (mkDF names []) (mkDF names []) (mkDF names [])
  = Ok empty_output.
Proof.
  rewrite convert_datatable_eq.
  rewrite check_days_Ok.
  - cbn [bind]. rewrite flat_map_empty; [reflexivity |].
    intros day _. unfold day_block. now rewrite !count_empty.
  - intros day e Hday. apply day_columns_In in Hday. simpl in Hday.
    rewrite (day_count_empty names day Hday). repeat split; discriminate.
Qed.

Lemma sex_matches_false (cols : list string) (w : string) (r : nat * list cell) :
  lookup cols "sex" r <> CStr w -> sex_matches cols (Some w) r = false.
Proof.
  unfold sex_matches, lookup.
  destruct (cell_of cols "sex" r) as [c |]; [| reflexivity].
  destruct c as [q | s |]; simpl; try reflexivity.
  intros H. destruct (String.eqb_spec s w); [subst; now elim H | reflexivity].
Qed.

Lemma filter_none {A} (p : A -> bool) (xs : list A) :
  (forall x, In x xs -> p x = false) -> filter p xs = [].
Proof.
  induction xs as [| x xs IH]; intros H; simpl; [reflexivity |].
  rewrite (H x) by now left. apply IH. intros y Hy. apply H. now right.
Qed.

Lemma spec_filtered_unmatched (raw : DataFrame) (w : string) (cond : Z) :
  (forall r, In r (rows raw) -> lookup (columns raw) "sex" r <> CStr w) ->
  spec_filtered raw (Some w) cond = mkDF (filter no_eggs (columns raw)) [].
Proof.
  intros H. unfold spec_filtered.
  rewrite (filter_none (spec_keeps (columns raw) (Some w) cond)); [reflexivity |].
  intros r Hr. unfold spec_keeps.
  now rewrite (sex_matches_false _ _ _ (H r Hr)).
Qed.

(** C7: when the table has a sex column (and the temp column every input
    has) and the sex filter equals the sex of no row, filtering followed by
    expansion returns a table, and the table has no rows. *)
Theorem unmatched_sex_filter (raw : DataFrame) (w : string) :
  NoDup (columns raw) ->
  In "temp" (columns raw) ->
  In "sex" (columns raw) ->
  (forall r, In r (rows raw) -> lookup (columns raw) "sex" r <> CStr w) ->
  exists out,
    pipeline raw (Some w) = Ok out /\
    len out = 0 /\
    out = mkDF ["time"; "23"; "30"; "37"] [].
Proof.
  intros _ Htemp Hsex Hnone.
  exists empty_output. split; [| now split].
  unfold pipeline. rewrite filter_datatable_eq.
  apply has_column_In in Htemp, Hsex. rewrite Htemp, Hsex. cbn [negb bind].
  rewrite !spec_filtered_unmatched by exact Hnone.
  apply convert_datatable_empty.
Qed.

Lemma unmatched_sex_filter_example :
  exists out,
    pipeline assay_table (Some "X") = Ok out /\
    len out = 0 /\
    out = mkDF ["time"; "23"; "30"; "37"] [].
Proof.
  apply (unmatched_sex_filter assay_table "X");
    [solve_NoDup | simpl; tauto | simpl; tauto |].
  simpl. intros r H.
  repeat (destruct H as [<- | H]; [discriminate |]). destruct H.
Defined.

(** ** Counting the rows *)

Lemma restrict_value (cols names : list string) (day : string) (j : nat)
  (r : nat * list cell) :
  position day names = Some j ->
  value_at j (restrict cols names r) = lookup cols day r.
Proof.
  intros H. apply position_nth in H. unfold value_at, restrict. simpl snd.
  apply nth_error_nth.
  now apply (map_nth_error (fun n => lookup cols n r)).
Qed.











(** ** Running twice *)

(** C9: filter-then-expand is deterministic: on a given table and sex
    filter a run always ends, and any two runs end in the same result, the
    same table or the same error; whatever a writer makes of the result, it
    makes the same of both. *)
Theorem pipeline_deterministic (datatable : DataFrame) (wormSex : option string) :
  executes datatable wormSex (pipeline datatable wormSex) /\
  (forall r1 r2,
     executes datatable wormSex r1 -> executes datatable wormSex r2 ->
     r1 = r2 /\
     forall (File : Type) (save : result DataFrame -> File), save r1 = save r2).
Proof.
  split; [apply executes_pipeline |].
  intros r1 r2 H1 H2.
  assert (E : r1 = r2) by (eapply executes_unique; eassumption).
  split; [exact E |]. intros File save. now rewrite E.
Qed.

Lemma pipeline_deterministic_example :
  executes example_table None (Ok example_output) /\
  (pipeline example_table None = Ok example_output /\
   forall (File : Type) (save : result DataFrame -> File),
     save (pipeline example_table None) = save (Ok example_output)).
Proof.
  destruct (pipeline_deterministic example_table None) as [Hrun Hsame].
  split; [exact Hrun |].
  exact (Hsame (pipeline example_table None) (Ok example_output) Hrun Hrun).
Defined.

(** * Further properties of the script *)

(** ** When the filter fails *)

Lemma has_column_not_In (name : string) (df : DataFrame) :
  has_column name df = false <-> ~ In name (columns df).
Proof.
  rewrite <- has_column_In. destruct (has_column name df); split; congruence.
Qed.



(** ** The three tables side by side *)

Lemma cell_eq_num_exclusive (c : cell) (a b : Z) :
  a <> b -> cell_eq c (num a) = true -> cell_eq c (num b) = false.
Proof.
  intros Hab. destruct c as [q | s |]; simpl; try discriminate.
  intros Ha. destruct (Qeq_bool q (inject_Z b)) eqn:Hb; [| reflexivity].
  apply Qeq_bool_eq in Ha, Hb. exfalso. apply Hab.
  apply inject_Z_injective. now rewrite <- Ha, <- Hb.
Qed.

Lemma temp_is_exclusive (cols : list string) (a b : Z) (r : nat * list cell) :
  a <> b -> temp_is cols a r = true -> temp_is cols b r = false.
Proof.
  unfold temp_is. destruct (cell_of cols "temp" r) as [c |]; [| reflexivity].
  apply cell_eq_num_exclusive.
Qed.

Lemma spec_keeps_exclusive (cols : list string) (wormSex : option string)
  (a b : Z) (r : nat * list cell) :
  a <> b -> spec_keeps cols wormSex a r = true -> spec_keeps cols wormSex b r = false.
Proof.
  unfold spec_keeps. intros Hab H. apply andb_true_iff in H. destruct H as [_ H].
  rewrite (temp_is_exclusive cols a b r Hab H). apply andb_false_r.
Qed.

Lemma filter3_length {A} (p q s : A -> bool) (xs : list A) :
  (forall x, p x = true -> q x = false /\ s x = false) ->
  (forall x, q x = true -> s x = false) ->
  List.length (filter p xs) + List.length (filter q xs) + List.length (filter s xs)
  = List.length (filter (fun x => p x || q x || s x) xs).
Proof.
  intros Hp Hq. induction xs as [| x xs IH]; simpl; [reflexivity |].
  destruct (p x) eqn:Ep.
  - destruct (Hp x Ep) as [-> ->]. simpl. lia.
  - destruct (q x) eqn:Eq.
    + rewrite (Hq x Eq). simpl. lia.
    + destruct (s x); simpl; lia.
Qed.

Lemma spec_filtered_len (raw : DataFrame) (wormSex : option string) (cond : Z) :
  len (spec_filtered raw wormSex cond)
  = List.length (filter (spec_keeps (columns raw) wormSex cond) (rows raw)).
Proof.
  unfold len, spec_filtered. simpl rows. apply length_map.
Qed.

(** X2: a raw row goes to one of the three tables at most, and a row at any
    other temperature to none: together the tables have as many rows as the
    raw table has rows that pass the sex and exclude tests at 23, 30 or 37,
    never more than the raw table. *)
Theorem filtered_tables_disjoint (raw : DataFrame) (wormSex : option string)
  (lowdata middata highdata : DataFrame) :
  filter_datatable raw wormSex = Ok (lowdata, middata, highdata) ->
  len lowdata + len middata + len highdata
  = List.length
      (filter (fun r => sex_matches (columns raw) wormSex r &&
                        not_excluded (columns raw) r &&
                        (temp_is (columns raw) lowTemp r ||
                         temp_is (columns raw) midTemp r ||
                         temp_is (columns raw) highTemp r))
              (rows raw)) /\
  len lowdata + len middata + len highdata <= len raw.
Proof.
  intros H. apply filter_datatable_Ok in H. destruct H as [-> [-> ->]].
  rewrite !spec_filtered_len.
  rewrite filter3_length.
  - split.
    + f_equal. apply filter_ext. intros r. unfold spec_keeps.
      destruct (sex_matches (columns raw) wormSex r && not_excluded (columns raw) r);
        reflexivity.
    + apply filter_length_le.
  - intros r Hr. split; apply (spec_keeps_exclusive _ _ lowTemp _ r); easy.
  - intros r Hr. apply (spec_keeps_exclusive _ _ midTemp _ r); easy.
Qed.

Lemma filtered_tables_disjoint_example :
  len assay_low + len assay_mid + len assay_high
  = List.length
      (filter (fun r => sex_matches (columns assay_table) None r &&
                        not_excluded (columns assay_table) r &&
                        (temp_is (columns assay_table) lowTemp r ||
                         temp_is (columns assay_table) midTemp r ||
                         temp_is (columns assay_table) highTemp r))
              (rows assay_table)) /\
  len assay_low + len assay_mid + len assay_high <= len assay_table.
Proof.
  apply (filtered_tables_disjoint assay_table None). reflexivity.
Defined.

(** ** Filtering a filtered table *)

Lemma position_not_In (name : string) (cols : list string) :
  ~ In name cols -> position name cols = None.
Proof.
  intros H. destruct (position name cols) as [j |] eqn:E; [| reflexivity].
  elim H. eapply position_Some_In, E.
Qed.

(** A kept column holds in the cut-down row what it held in the raw row. *)
Lemma cell_of_restrict (cols : list string) (name : string) (r : nat * list cell) :
  no_eggs name = true ->
  cell_of (filter no_eggs cols) name (restrict cols (filter no_eggs cols) r)
  = cell_of cols name r.
Proof.
  intros Hn. unfold cell_of at 1.
  destruct (position name (filter no_eggs cols)) as [j |] eqn:E; simpl.
  - rewrite (restrict_value _ _ name j r E).
    assert (Hin : In name cols).
    { apply position_Some_In in E. now apply filter_In in E. }
    destruct (position_In _ _ Hin) as [i Hi].
    unfold lookup, cell_of. now rewrite Hi.
  - destruct (position name cols) as [i |] eqn:Ei.
    + apply position_Some_In in Ei.
      assert (Hin : In name (filter no_eggs cols)) by now apply filter_In.
      destruct (position_In _ _ Hin) as [j Hj]. congruence.
    + unfold cell_of. now rewrite Ei.
Qed.

Lemma spec_keeps_restrict (cols : list string) (wormSex : option string)
  (cond : Z) (r : nat * list cell) :
  spec_keeps (filter no_eggs cols) wormSex cond
             (restrict cols (filter no_eggs cols) r)
  = spec_keeps cols wormSex cond r.
Proof.
  unfold spec_keeps, sex_matches, not_excluded, temp_is.
  now rewrite !cell_of_restrict by reflexivity.
Qed.

Lemma restrict_restrict (cols names : list string) (r : nat * list cell) :
  restrict names names (restrict cols names r) = restrict cols names r.
Proof.
  unfold restrict at 1 3. simpl fst. f_equal.
  apply map_ext_in. intros n Hn.
  destruct (position_In _ _ Hn) as [j Hj].
  unfold lookup at 1, cell_of. rewrite Hj. simpl.
  now apply restrict_value.
Qed.

Lemma filter_map_swap {A B} (f : A -> B) (p : B -> bool) (xs : list A) :
  filter p (map f xs) = map f (filter (fun x => p (f x)) xs).
Proof.
  induction xs as [| x xs IH]; simpl; [reflexivity |].
  destruct (p (f x)); simpl; now rewrite IH.
Qed.

Lemma filter_filter_same {A} (p : A -> bool) (xs : list A) :
  filter p (filter p xs) = filter p xs.
Proof.
  induction xs as [| x xs IH]; simpl; [reflexivity |].
  destruct (p x) eqn:E; simpl; [rewrite E |]; now rewrite IH.
Qed.

Lemma filter_filter_exclusive {A} (p q : A -> bool) (xs : list A) :
  (forall x, p x = true -> q x = false) -> filter q (filter p xs) = [].
Proof.
  intros H. apply filter_none. intros x Hx. apply H. now apply filter_In in Hx.
Qed.

Lemma spec_filtered_again (raw : DataFrame) (wormSex : option string) (cond : Z) :
  spec_filtered (spec_filtered raw wormSex cond) wormSex cond
  = spec_filtered raw wormSex cond.
Proof.
  unfold spec_filtered at 1. rewrite spec_filtered_columns.
  unfold spec_filtered at 2. simpl rows.
  rewrite filter_filter_same. unfold spec_filtered. f_equal.
  rewrite filter_map_swap, map_map.
  rewrite (filter_ext _ (spec_keeps (columns raw) wormSex cond))
    by (intros r; apply spec_keeps_restrict).
  rewrite filter_filter_same. apply map_ext. intros r. apply restrict_restrict.
Qed.

Lemma spec_filtered_other (raw : DataFrame) (wormSex : option string)
  (cond cond' : Z) :
  cond <> cond' ->
  spec_filtered (spec_filtered raw wormSex cond) wormSex cond'
  = mkDF (filter no_eggs (columns raw)) [].
Proof.
  intros Hc. unfold spec_filtered at 1. rewrite spec_filtered_columns.
  unfold spec_filtered at 1. simpl rows.
  rewrite filter_filter_same. f_equal.
  rewrite filter_map_swap.
  rewrite (filter_ext _ (spec_keeps (columns raw) wormSex cond'))
    by (intros r; apply spec_keeps_restrict).
  rewrite filter_filter_exclusive; [reflexivity |].
  intros r. now apply spec_keeps_exclusive.
Qed.

Lemma filter_datatable_Ok_columns (raw : DataFrame) (wormSex : option string)
  (tables : DataFrame * DataFrame * DataFrame) :
  filter_datatable raw wormSex = Ok tables ->
  has_column "temp" raw = true /\
  match wormSex with
  | Some _ => negb (has_column "sex" raw)
  | None => false
  end = false.
Proof.
  rewrite filter_datatable_eq.
  destruct (match wormSex with
            | Some _ => negb (has_column "sex" raw)
            | None => false
            end); [discriminate |].
  destruct (has_column "temp" raw); [now split | discriminate].
Qed.

Lemma has_column_filtered (name : string) (raw : DataFrame)
  (wormSex : option string) (cond : Z) :
  no_eggs name = true ->
  has_column name (spec_filtered raw wormSex cond) = has_column name raw.
Proof.
  intros Hn. apply eq_true_iff_eq. rewrite !has_column_In, spec_filtered_columns.
  rewrite filter_In. tauto.
Qed.

(** X3: filtering is idempotent.  Filtering the low table again with the
    same sex selection returns it unchanged as the low table, beside a mid
    and a high table without rows; likewise for the mid and the high
    table. *)
Theorem filter_datatable_idempotent (raw : DataFrame) (wormSex : option string)
  (lowdata middata highdata : DataFrame) :
  filter_datatable raw wormSex = Ok (lowdata, middata, highdata) ->
  filter_datatable lowdata wormSex
  = Ok (lowdata, mkDF (columns lowdata) [], mkDF (columns lowdata) []) /\
  filter_datatable middata wormSex
  = Ok (mkDF (columns middata) [], middata, mkDF (columns middata) []) /\
  filter_datatable highdata wormSex
  = Ok (mkDF (columns highdata) [], mkDF (columns highdata) [], highdata).
Proof.
  intros H. destruct (filter_datatable_Ok_columns _ _ _ H) as [Ht Hs].
  apply filter_datatable_Ok in H. destruct H as [-> [-> ->]].
  assert (Hagain : forall cond,
             filter_datatable (spec_filtered raw wormSex cond) wormSex
             = Ok (spec_filtered (spec_filtered raw wormSex cond) wormSex lowTemp,
                   spec_filtered (spec_filtered raw wormSex cond) wormSex midTemp,
                   spec_filtered (spec_filtered raw wormSex cond) wormSex highTemp)).
  { intros cond. rewrite filter_datatable_eq.
    rewrite !has_column_filtered by reflexivity. now rewrite Ht, Hs. }
  rewrite !Hagain, !spec_filtered_again, !spec_filtered_columns.
  rewrite !spec_filtered_other by discriminate.
  now repeat split.
Qed.

Lemma filter_datatable_idempotent_example :
  filter_datatable assay_low None
  = Ok (assay_low, mkDF (columns assay_low) [], mkDF (columns assay_low) []) /\
  filter_datatable assay_mid None
  = Ok (mkDF (columns assay_mid) [], assay_mid, mkDF (columns assay_mid) []) /\
  filter_datatable assay_high None
  = Ok (mkDF (columns assay_high) [], mkDF (columns assay_high) [], assay_high).
Proof.
  apply (filter_datatable_idempotent assay_table None). reflexivity.
Defined.

(** ** What the output depends on *)

Lemma for_each_ext {A S} (xs : list A) (f g : A -> S -> result S) (st : S) :
  (forall x st', In x xs -> f x st' = g x st') ->
  for_each xs f st = for_each xs g st.
Proof.
  revert st; induction xs as [| x xs IH]; intros st H; simpl; [reflexivity |].
  rewrite (H x st) by now left.
  destruct (g x st) as [st' | e]; simpl; [| reflexivity].
  apply IH. intros y st'' Hy. apply H. now right.
Qed.

Lemma emit_rows_ext (data data' : DataFrame) (day : string)
  (row : string -> list cell) (ndt : DataFrame) :
  day_count data day = day_count data' day ->
  emit_rows data day row ndt = emit_rows data' day row ndt.
Proof.
  intros H. unfold emit_rows. now rewrite H.
Qed.

(** The expansion depends on its tables through the day columns of the low
    table and the counts of these days only. *)
Lemma convert_datatable_ext (l m h l' m' h' : DataFrame) :
  day_columns l = day_columns l' ->
  (forall day, In day (day_columns l) ->
     day_count l day = day_count l' day /\
     day_count m day = day_count m' day /\
     day_count h day = day_count h' day) ->
  convert_datatable l m h = convert_datatable l' m' h'.
Proof.
  intros Hdays Hcounts. unfold convert_datatable.
  rewrite !collect_dayNames_eq, <- Hdays. cbn [bind].
  apply for_each_ext. intros day ndt Hday.
  destruct (Hcounts day Hday) as [Hl [Hm Hh]].
  rewrite (emit_rows_ext l l' day low_row ndt Hl).
  destruct (emit_rows l' day low_row ndt) as [ndt1 | e]; cbn [bind]; [| reflexivity].
  rewrite (emit_rows_ext m m' day mid_row ndt1 Hm).
  destruct (emit_rows m' day mid_row ndt1) as [ndt2 | e]; cbn [bind]; [| reflexivity].
  apply emit_rows_ext, Hh.
Qed.

Lemma map_filter_Forall2 {A B} (R : A -> A -> Prop) (p : A -> bool) (f : A -> B)
  (xs ys : list A) :
  Forall2 R xs ys ->
  (forall x y, R x y -> p x = p y) ->
  (forall x y, R x y -> f x = f y) ->
  map f (filter p xs) = map f (filter p ys).
Proof.
  intros H Hp Hf. induction H as [| x y xs ys Hxy H IH]; simpl; [reflexivity |].
  rewrite (Hp x y Hxy). destruct (p y); simpl; [| exact IH].
  now rewrite (Hf x y Hxy), IH.
Qed.

Lemma same_read_keeps (cols : list string) (wormSex : option string) (cond : Z)
  (r r' : nat * list cell) :
  same_read_cells cols wormSex r r' ->
  spec_keeps cols wormSex cond r = spec_keeps cols wormSex cond r'.
Proof.
  intros H. unfold spec_keeps, sex_matches, not_excluded, temp_is.
  rewrite (H "temp") by reflexivity.
  rewrite (H "exclude") by reflexivity.
  destruct wormSex as [w |]; [| reflexivity].
  now rewrite (H "sex") by reflexivity.
Qed.

Lemma filtered_column (raw : DataFrame) (wormSex : option string) (cond : Z)
  (day : string) (j : nat) :
  position day (filter no_eggs (columns raw)) = Some j ->
  column_at j (spec_filtered raw wormSex cond)
  = map (lookup (columns raw) day)
        (filter (spec_keeps (columns raw) wormSex cond) (rows raw)).
Proof.
  intros Hj. unfold column_at, spec_filtered. simpl rows. rewrite map_map.
  apply map_ext. intros r. now apply restrict_value.
Qed.

Lemma day_count_same_read (cols : list string) (rs rs' : list (nat * list cell))
  (wormSex : option string) (cond : Z) (day : string) :
  Forall2 (same_read_cells cols wormSex) rs rs' ->
  startswith "Day" day = true ->
  day_count (spec_filtered (mkDF cols rs) wormSex cond) day
  = day_count (spec_filtered (mkDF cols rs') wormSex cond) day.
Proof.
  intros H Hday. unfold day_count, getitem. rewrite !spec_filtered_columns.
  simpl columns.
  destruct (position day (filter no_eggs cols)) as [j |] eqn:Hj; [| reflexivity].
  cbn [bind].
  rewrite (filtered_column (mkDF cols rs) wormSex cond day j Hj).
  rewrite (filtered_column (mkDF cols rs') wormSex cond day j Hj).
  simpl columns. simpl rows.
  rewrite (map_filter_Forall2 (same_read_cells cols wormSex) _ _ rs rs' H);
    [reflexivity | intros x y Hxy; now apply same_read_keeps |].
  intros x y Hxy. unfold lookup. rewrite (Hxy day); [reflexivity |].
  unfold is_read. rewrite Hday.
  apply position_Some_In, filter_In in Hj. destruct Hj as [_ ->].
  now rewrite !orb_true_r.
Qed.

(** X4: the output depends on the raw rows only through the cells under
    temp, exclude, sex (when a sex is selected) and the kept day columns.
    Two tables whose rows agree there give the same result, whatever their
    index labels, their egg counts and their other columns hold. *)
Theorem pipeline_reads_only (cols : list string) (rs rs' : list (nat * list cell))
  (wormSex : option string) :
  Forall2 (same_read_cells cols wormSex) rs rs' ->
  pipeline (mkDF cols rs) wormSex = pipeline (mkDF cols rs') wormSex.
Proof.
  intros H. unfold pipeline. rewrite !filter_datatable_eq.
  unfold has_column. simpl columns.
  destruct (match wormSex with
            | Some _ => negb match position "sex" cols with
                             | Some _ => true
                             | None => false
                             end
            | None => false
            end); [reflexivity |].
  destruct (position "temp" cols); [| reflexivity].
  cbn [bind]. apply convert_datatable_ext; [reflexivity |].
  intros day Hday. apply filter_In in Hday. destruct Hday as [_ Hday].
  repeat split; now apply day_count_same_read.
Qed.

Ltac solve_same_read :=
  intros name Hname; unfold cell_of; cbn [position];
  repeat match goal with
         | |- context [String.eqb ?c name] =>
             destruct (String.eqb_spec c name) as [<- | _];
             [try reflexivity; try discriminate Hname |]
         end;
  reflexivity.

Lemma pipeline_reads_only_example :
  pipeline (mkDF ["temp"; "sex"; "eggs_laid"; "note"; "Day1"] notes_rows_a) None
  = pipeline (mkDF ["temp"; "sex"; "eggs_laid"; "note"; "Day1"] notes_rows_b) None.
Proof.
  apply (pipeline_reads_only ["temp"; "sex"; "eggs_laid"; "note"; "Day1"]
           notes_rows_a notes_rows_b None).
  unfold notes_rows_a, notes_rows_b.
  apply Forall2_cons; [solve_same_read |].
  apply Forall2_cons; [solve_same_read | apply Forall2_nil].
Defined.

(** X5: of the mid and the high table the expansion reads nothing but the
    columns named by the day columns of the low table: two mid tables and
    two high tables that give the same under these labels give the same
    result. *)
Theorem convert_reads_low_days (lowdata middata highdata middata' highdata'
  : DataFrame) :
  (forall day, In day (day_columns lowdata) ->
     getitem middata day = getitem middata' day /\
     getitem highdata day = getitem highdata' day) ->
  convert_datatable lowdata middata highdata
  = convert_datatable lowdata middata' highdata'.
Proof.
  intros H. apply convert_datatable_ext; [reflexivity |].
  intros day Hday. destruct (H day Hday) as [Hm Hh].
  unfold day_count. now rewrite Hm, Hh.
Qed.

Lemma convert_reads_low_days_example :
  convert_datatable assay_low assay_mid assay_high
  = convert_datatable assay_low assay_mid_days assay_high_days.
Proof.
  apply (convert_reads_low_days assay_low assay_mid assay_high
           assay_mid_days assay_high_days).
  intros day Hday. simpl in Hday.
  destruct Hday as [<- | [<- | []]]; split; reflexivity.
Defined.

(** ** Counts below one, and the failures of the expansion *)





Lemma check_days_Ok_inv (lowdata middata highdata : DataFrame)
  (days : list string) (u : unit) (day : string) :
  check_days lowdata middata highdata days = Ok u ->
  In day days ->
  exists nl nm nh,
    day_count lowdata day = Ok nl /\
    day_count middata day = Ok nm /\
    day_count highdata day = Ok nh.
Proof.
  unfold check_days. induction days as [| d days IH]; simpl; [tauto |].
  intros H Hin. apply bind_Ok_inv in H. destruct H as [[] [Hd H]].
  destruct Hin as [<- | Hin]; [| now apply IH].
  unfold check_day in Hd.
  apply bind_Ok_inv in Hd. destruct Hd as [nl [Hl Hd]].
  apply bind_Ok_inv in Hd. destruct Hd as [nm [Hm Hd]].
  apply bind_Ok_inv in Hd. destruct Hd as [nh [Hh _]].
  now exists nl, nm, nh.
Qed.

Lemma day_count_Ok_In (data : DataFrame) (day : string) (n : Z) :
  day_count data day = Ok n -> In day (columns data).
Proof.
  unfold day_count, getitem.
  destruct (position day (columns data)) as [j |] eqn:E; [| discriminate].
  intros _. eapply position_Some_In, E.
Qed.

(** X8: when a day column of the low table is missing from the mid or from
    the high table, the expansion returns no table: it ends in an error. *)
Theorem convert_datatable_misaligned (lowdata middata highdata : DataFrame)
  (day : string) :
  In day (day_columns lowdata) ->
  ~ In day (columns middata) \/ ~ In day (columns highdata) ->
  exists e, convert_datatable lowdata middata highdata = Raise e.
Proof.
  intros Hday Hmiss.
  destruct (convert_datatable lowdata middata highdata) as [out | e] eqn:E;
    [| now exists e].
  exfalso. rewrite convert_datatable_eq in E.
  apply bind_Ok_inv in E. destruct E as [u [E _]].
  destruct (check_days_Ok_inv _ _ _ _ u day E Hday) as [nl [nm [nh [_ [Hm Hh]]]]].
  apply day_count_Ok_In in Hm, Hh. tauto.
Qed.

Lemma convert_datatable_misaligned_example :
  exists e, convert_datatable minus_low no_day_mid half_high = Raise e.
Proof.
  apply (convert_datatable_misaligned minus_low no_day_mid half_high "Day1").
  - simpl. tauto.
  - left. simpl. intros [H | []]. discriminate.
Defined.

(** ** The table during a run *)

Lemma step_table (lowdata middata highdata : DataFrame) (c c' : config)
  (vs : list (list cell)) (t' : DataFrame) :
  step lowdata middata highdata c c' ->
  table_of c = Some (built vs) ->
  table_of c' = Some t' ->
  t' = built vs \/ exists row, t' = built (vs ++ [row]).
Proof.
  intros Hstep Ht Ht'.
  inversion Hstep; subst; simpl in Ht, Ht'; try discriminate;
    injection Ht as ->; injection Ht' as <-; auto.
  right. unfold append_row in H.
  apply bind_Ok_inv in H. destruct H as [t0 [_ H]].
  rewrite loc_setitem_built in H by apply phase_row_length.
  injection H as <-. now exists (phase_row ph t0).
Qed.

(** Every configuration of a run holds a table built by appending. *)
Lemma steps_built (lowdata middata highdata : DataFrame) (c c' : config) :
  steps lowdata middata highdata c c' ->
  (forall t, table_of c = Some t -> exists vs, t = built vs) ->
  forall t', table_of c' = Some t' -> exists vs, t' = built vs.
Proof.
  induction 1 as [c | c1 c2 c3 H12 H23 IH]; intros Hinv; [exact Hinv |].
  apply IH. intros t2 Ht2.
  destruct (table_of c1) as [t1 |] eqn:Ht1.
  - destruct (Hinv t1 eq_refl) as [vs ->].
    destruct (step_table _ _ _ _ _ _ _ H12 Ht1 Ht2) as [-> | [row ->]]; eauto.
  - inversion H12; subst; simpl in Ht1; discriminate.
Qed.

(** X9: during a run of the expansion the output table is only ever
    appended to.  In every configuration reached from the empty table the
    index is 0, 1, ..., n-1, and a step either leaves the table as it is or
    adds one row at the end, under the next index; no row once written is
    overwritten or removed. *)
Theorem run_only_appends (lowdata middata highdata : DataFrame)
  (days : list string) (c c' : config) (t t' : DataFrame) :
  steps lowdata middata highdata (Enter days Low empty_output) c ->
  step lowdata middata highdata c c' ->
  table_of c = Some t ->
  table_of c' = Some t' ->
  map fst (rows t) = seq 0 (len t) /\
  columns t' = columns t /\
  (rows t' = rows t \/ exists row, rows t' = rows t ++ [(len t, row)]).
Proof.
  intros Hrun Hstep Ht Ht'.
  destruct (steps_built _ _ _ _ _ Hrun) with (t' := t) as [vs ->];
    [| exact Ht |].
  { intros t0 H0. simpl in H0. injection H0 as <-. now exists []. }
  split; [unfold len; simpl rows; now rewrite relabel_labels, relabel_length |].
  destruct (step_table _ _ _ _ _ _ _ Hstep Ht Ht') as [-> | [row ->]].
  - split; [reflexivity | now left].
  - split; [reflexivity |]. right. exists row.
    unfold len. simpl rows. now rewrite relabel_snoc, relabel_length.
Qed.

Lemma run_only_appends_example :
  map fst (rows (built [])) = seq 0 (len (built [])) /\
  columns (built [low_row "3"]) = columns (built []) /\
  (rows (built [low_row "3"]) = rows (built []) \/
   exists row, rows (built [low_row "3"]) = rows (built []) ++ [(len (built []), row)]).
Proof.
  apply (run_only_appends
           (spec_filtered example_table None lowTemp)
           (spec_filtered example_table None midTemp)
           (spec_filtered example_table None highTemp)
           ["Day3"; "Day4"]
           (Loop ["Day3"; "Day4"] Low 2 (built []))
           (Loop ["Day3"; "Day4"] Low 1 (built [low_row "3"]))).
  - eapply steps_cons; [| apply steps_refl].
    apply (step_count _ _ _ "Day3" ["Day4"] Low empty_output 2). reflexivity.
  - apply step_append. reflexivity.
  - reflexivity.
  - reflexivity.
Defined.

(** ** The save path *)

Lemma endswith_suffix (suffix s : string) :
  endswith suffix s = true <-> exists pre, s = (pre ++ suffix)%string.
Proof.
  induction s as [| c s IH]; simpl.
  - rewrite orb_false_r, String.eqb_eq. split.
    + intros ->. now exists ""%string.
    + intros [pre H]. destruct pre; simpl in H; [now subst | discriminate].
  - rewrite orb_true_iff, String.eqb_eq, IH. split.
    + intros [-> | [pre ->]]; [now exists ""%string | now exists (String c pre)].
    + intros [pre H]. destruct pre as [| c' pre]; simpl in H.
      * left. now subst.
      * right. injection H as _ H. now exists pre.
Qed.

Lemma endswith_app (suffix a b : string) :
  endswith suffix b = true -> endswith suffix (a ++ b)%string = true.
Proof.
  intros H. induction a as [| c a IH]; simpl; [exact H |].
  rewrite IH. apply orb_true_r.
Qed.

Lemma endswith_refl (s : string) : endswith s s = true.
Proof.
  destruct s; [reflexivity |]. cbn [endswith]. now rewrite String.eqb_refl.
Qed.

Lemma endswith_join (suffix a b : string) :
  endswith suffix b = true -> endswith suffix (join a b) = true.
Proof.
  intros H. unfold join.
  destruct (startswith (String sep "") b); [exact H |].
  destruct (String.eqb a "" || endswith (String sep "") a).
  - now apply endswith_app.
  - apply endswith_app. now apply (endswith_app suffix (String sep "")).
Qed.

(** X10: whatever file is chosen and whatever name is typed, the save path
    ends in .csv. *)
Theorem get_savepath_csv (fp sp_filename : string) :
  exists stem, get_savepath fp sp_filename = (stem ++ ".csv")%string.
Proof.
  apply endswith_suffix. unfold get_savepath.
  destruct (Nat.eqb (String.length sp_filename) 0).
  - now apply endswith_join.
  - apply endswith_join.
    destruct (endswith ".csv" sp_filename) eqn:E; simpl; [exact E |].
    apply endswith_app, endswith_refl.
Qed.

(** X11: a typed name that starts with a slash replaces the folder of the
    chosen file: the save path is the typed name itself, with .csv added
    when it does not end in it. *)
Theorem get_savepath_absolute (fp sp_filename : string) :
  startswith "/" sp_filename = true ->
  get_savepath fp sp_filename
  = if endswith ".csv" sp_filename then sp_filename
    else (sp_filename ++ ".csv")%string.
Proof.
  intros H. unfold get_savepath.
  destruct sp_filename as [| c s]; [discriminate |]. simpl String.length.
  cbn [Nat.eqb]. unfold join, sep.
  destruct (endswith ".csv" (String c s)); cbn [negb].
  - now rewrite H.
  - cbn [startswith append] in *. now rewrite H.
Qed.

Lemma get_savepath_absolute_example :
  get_savepath "/home/lab/data/assay.xlsx" "/tmp/run1"
  = if endswith ".csv" "/tmp/run1" then "/tmp/run1"
    else ("/tmp/run1" ++ ".csv")%string.
Proof.
  apply (get_savepath_absolute "/home/lab/data/assay.xlsx" "/tmp/run1").
  reflexivity.
Defined.

(** ** The folder of the save path *)

Lemma rfind_ge (c : ascii) (s : string) : (-1 <= rfind c s)%Z.
Proof.
  induction s as [| a s IH]; simpl; [lia |].
  destruct (0 <=? rfind c s)%Z eqn:E; [apply Z.leb_le in E; lia |].
  destruct (Ascii.eqb a c); lia.
Qed.

Lemma rfind_none (s : string) :
  rfind sep s = (-1)%Z <-> str_in "/" s = false.
Proof.
  induction s as [| a s IH]; [simpl; tauto |].
  cbn [rfind str_in startswith]. pose proof (rfind_ge sep s) as Hge.
  rewrite andb_true_r, orb_false_iff, <- IH.
  destruct (0 <=? rfind sep s)%Z eqn:E.
  - apply Z.leb_le in E. split; [intros H; exfalso; lia | intros [_ H]; exfalso; lia].
  - apply Z.leb_gt in E. unfold sep in *.
    destruct (Ascii.eqb_spec a "/"%char) as [-> | Hne].
    + split; [discriminate | intros [H _]; discriminate].
    + split; [| reflexivity]. intros _. split; [| lia].
      destruct (Ascii.eqb_spec "/"%char a); congruence.
Qed.

Lemma rfind_app_sep (a name : string) :
  rfind sep name = (-1)%Z ->
  rfind sep (a ++ String sep name)%string = Z.of_nat (String.length a).
Proof.
  intros H. induction a as [| c a IH].
  - cbn [append rfind String.length]. rewrite H. reflexivity.
  - cbn [append rfind String.length]. rewrite IH.
    destruct (0 <=? Z.of_nat (String.length a))%Z eqn:E; [lia |].
    apply Z.leb_gt in E. lia.
Qed.

Lemma rfind_app_none (a b : string) :
  rfind sep a = (-1)%Z -> rfind sep b = (-1)%Z ->
  rfind sep (a ++ b)%string = (-1)%Z.
Proof.
  rewrite !rfind_none. intros Ha Hb.
  induction a as [| c a IH]; [exact Hb |].
  cbn [append str_in startswith] in *.
  rewrite andb_true_r in *. apply orb_false_iff in Ha. destruct Ha as [Hc Ha].
  now rewrite Hc, IH.
Qed.

Lemma substring_prefix (a b : string) :
  substring 0 (String.length a) (a ++ b)%string = a.
Proof.
  induction a as [| c a IH]; simpl; [now destruct b | now rewrite IH].
Qed.

Lemma append_assoc (a b c : string) :
  ((a ++ b) ++ c = a ++ (b ++ c))%string.
Proof.
  induction a as [| x a IH]; simpl; [reflexivity | now rewrite IH].
Qed.

Lemma append_length (a b : string) :
  String.length (a ++ b)%string = String.length a + String.length b.
Proof.
  induction a as [| x a IH]; simpl; [reflexivity | now rewrite IH].
Qed.

Lemma all_sep_app (a b : string) :
  all_sep (a ++ b)%string = all_sep a && all_sep b.
Proof.
  induction a as [| x a IH]; simpl; [reflexivity |].
  now rewrite IH, andb_assoc.
Qed.

Lemma rstrip_sep_empty (s : string) :
  rstrip_sep s = ""%string <-> all_sep s = true.
Proof.
  induction s as [| a s IH]; [simpl; tauto |].
  cbn [rstrip_sep all_sep]. rewrite andb_true_iff, <- IH.
  destruct (rstrip_sep s) as [| b t].
  - destruct (Ascii.eqb a sep); split; try tauto; try discriminate.
    intros [H _]. discriminate.
  - split; [discriminate | intros [_ H]; discriminate].
Qed.

Lemma rstrip_sep_no_trailing (s : string) :
  endswith (String sep "") (rstrip_sep s) = false.
Proof.
  induction s as [| a s IH]; [reflexivity |].
  cbn [rstrip_sep]. destruct (rstrip_sep s) as [| b t].
  - destruct (Ascii.eqb a sep) eqn:E; [reflexivity |].
    cbn [endswith]. rewrite orb_false_r. apply String.eqb_neq.
    intros H. injection H as H. subst a. now rewrite Ascii.eqb_refl in E.
  - cbn [endswith] in *. rewrite IH, orb_false_r.
    apply String.eqb_neq. discriminate.
Qed.

Lemma rstrip_sep_id (s : string) :
  endswith (String sep "") s = false -> rstrip_sep s = s.
Proof.
  induction s as [| a s IH]; [reflexivity |].
  cbn [endswith rstrip_sep]. intros H. apply orb_false_iff in H.
  destruct H as [Ha Hs]. rewrite (IH Hs).
  destruct s as [| b t]; [| reflexivity].
  destruct (Ascii.eqb_spec a sep) as [-> | _]; [| reflexivity].
  now rewrite String.eqb_refl in Ha.
Qed.

Lemma rstrip_sep_app_sep (s : string) :
  rstrip_sep (s ++ String sep "")%string = rstrip_sep s.
Proof.
  induction s as [| a s IH].
  - reflexivity.
  - cbn [append rstrip_sep]. now rewrite IH.
Qed.

Lemma all_sep_trailing (s : string) :
  all_sep s = true -> s <> ""%string -> endswith (String sep "") s = true.
Proof.
  induction s as [| a s IH]; [congruence |].
  cbn [all_sep endswith]. intros H _. apply andb_true_iff in H.
  destruct H as [Ha Hs]. apply Ascii.eqb_eq in Ha. subst a.
  destruct s as [| b t].
  - now rewrite String.eqb_refl.
  - rewrite IH by (assumption || discriminate). apply orb_true_r.
Qed.

(** The folder of a path whose last slash is followed by [name]. *)
Lemma dirname_app_sep (a name : string) :
  rfind sep name = (-1)%Z ->
  dirname (a ++ String sep name)%string
  = if all_sep a then (a ++ String sep "")%string else rstrip_sep a.
Proof.
  intros H. unfold dirname. rewrite (rfind_app_sep a name H).
  replace (Z.to_nat (Z.of_nat (String.length a) + 1))
    with (String.length (a ++ String sep "")%string)
    by (rewrite append_length; simpl; lia).
  change (String sep name) with (String sep "" ++ name)%string.
  rewrite <- append_assoc, substring_prefix.
  rewrite all_sep_app.
  change (all_sep (String sep "")) with true. rewrite andb_true_r.
  destruct a as [| c a']; [reflexivity |].
  cbn [append]. 
  replace (String.eqb (String c (a' ++ String sep "")) "") with false
    by (symmetry; apply String.eqb_neq; discriminate).
  cbn [negb andb].
  destruct (all_sep (String c a')); cbn [negb]; [reflexivity |].
  change (String c (a' ++ String sep "")%string)
    with (String c a' ++ String sep "")%string.
  apply rstrip_sep_app_sep.
Qed.

Lemma dirname_no_sep (name : string) :
  rfind sep name = (-1)%Z -> dirname name = ""%string.
Proof.
  intros H. unfold dirname. rewrite H. simpl Z.to_nat.
  now destruct name.
Qed.

(** What [dirname] returns is empty, or nothing but slashes, or free of a
    trailing slash. *)
Lemma dirname_shape (p : string) :
  dirname p = ""%string \/
  (all_sep (dirname p) = true /\ dirname p <> ""%string) \/
  (all_sep (dirname p) = false /\ endswith (String sep "") (dirname p) = false).
Proof.
  unfold dirname.
  set (head := substring 0 (Z.to_nat (rfind sep p + 1)) p).
  destruct (String.eqb_spec head "") as [-> | Hne]; cbn [negb andb]; [now left |].
  destruct (all_sep head) eqn:E; cbn [negb]; [right; left; now split |].
  right. right. split; [| apply rstrip_sep_no_trailing].
  destruct (all_sep (rstrip_sep head)) eqn:E'; [| reflexivity].
  assert (Hr : rstrip_sep head <> ""%string).
  { intros Hr. apply rstrip_sep_empty in Hr. congruence. }
  pose proof (all_sep_trailing _ E' Hr) as Ht.
  now rewrite rstrip_sep_no_trailing in Ht.
Qed.

Lemma dirname_join (fp name : string) :
  rfind sep name = (-1)%Z ->
  dirname (join (dirname fp) name) = dirname fp.
Proof.
  intros H. unfold join.
  assert (Hs : startswith (String sep "") name = false).
  { apply rfind_none in H. destruct name as [| c s]; [reflexivity |].
    cbn [str_in] in H. apply orb_false_iff in H. exact (proj1 H). }
  rewrite Hs.
  destruct (dirname_shape fp) as [Hd | [[Hall Hne] | [Hall Hend]]].
  - rewrite Hd. simpl. now apply dirname_no_sep.
  - pose proof (all_sep_trailing _ Hall Hne) as Hend. rewrite Hend, orb_true_r.
    apply endswith_suffix in Hend. destruct Hend as [d0 Hd0].
    rewrite Hd0 in *. rewrite append_assoc.
    change (String sep "" ++ name)%string with (String sep name).
    rewrite (dirname_app_sep d0 name H).
    rewrite all_sep_app in Hall. apply andb_true_iff in Hall.
    now rewrite (proj1 Hall).
  - rewrite Hend, orb_false_r.
    destruct (String.eqb_spec (dirname fp) "") as [Hd | Hne].
    + rewrite Hd. simpl. now apply dirname_no_sep.
    + change (String sep "" ++ name)%string with (String sep name).
      rewrite (dirname_app_sep (dirname fp) name H), Hall.
      now apply rstrip_sep_id.
Qed.

(** X12: a typed name without a slash, and the default name for a blank
    answer, put the save path in the folder of the chosen file. *)
Theorem get_savepath_same_folder (fp sp_filename : string) :
  ~ contains "/" sp_filename ->
  dirname (get_savepath fp sp_filename) = dirname fp.
Proof.
  intros H.
  assert (Hn : rfind sep sp_filename = (-1)%Z).
  { apply rfind_none. destruct (str_in "/" sp_filename) eqn:E; [| reflexivity].
    elim H. now apply str_in_contains. }
  unfold get_savepath.
  destruct (Nat.eqb (String.length sp_filename) 0).
  - now apply dirname_join.
  - apply dirname_join.
    destruct (endswith ".csv" sp_filename); cbn [negb]; [exact Hn |].
    now apply rfind_app_none.
Qed.

Lemma get_savepath_same_folder_example :
  dirname (get_savepath "/home/lab/data/assay.xlsx" "run1")
  = dirname "/home/lab/data/assay.xlsx".
Proof.
  apply (get_savepath_same_folder "/home/lab/data/assay.xlsx" "run1").
  intros H. apply str_in_contains in H. discriminate H.
Defined.

(** ** The sex prompt *)

Lemma length_zero (s : string) : Nat.eqb (String.length s) 0 = true <-> s = ""%string.
Proof.
  destruct s; simpl; split; congruence.
Qed.

(** X13: on a table without a sex column, [main] ends in AttributeError sex
    exactly when the answer at the sex prompt is not empty; the empty
    answer switches the sex filter off and the column is not asked for. *)
Theorem main_sex_prompt (fp sp_filename sexFilter : string) (datatable : DataFrame) :
  ~ In "sex" (columns datatable) ->
  (main fp sp_filename sexFilter datatable = Raise (AttributeError "sex")
   <-> sexFilter <> ""%string).
Proof.
  intros Hsex. apply has_column_not_In in Hsex.
  unfold main, filter_sex.
  destruct (Nat.eqb (String.length sexFilter) 0) eqn:E.
  - apply length_zero in E. subst sexFilter.
    split; [| congruence]. intros H. exfalso.
    rewrite filter_datatable_eq in H.
    destruct (has_column "temp" datatable); [| discriminate].
    cbn [bind] in H.
    destruct (convert_datatable _ _ _) as [out | e] eqn:Ec; [discriminate |].
    cbn [bind] in H. injection H as ->.
    apply convert_datatable_Raise in Ec. destruct Ec as [day [_ Ec]].
    destruct Ec as [Ec | [Ec | Ec]]; apply day_count_Raise in Ec;
      destruct Ec as [[Ec _] | Ec]; discriminate.
  - split.
    + intros _ ->. discriminate.
    + intros _. rewrite filter_datatable_eq, Hsex. reflexivity.
Qed.

Lemma main_sex_prompt_example :
  main "/data/assay.xlsx" "" "F" (mkDF ["temp"; "Day1"] [(0, [num 23; num 2])])
  = Raise (AttributeError "sex") <-> "F"%string <> ""%string.
Proof.
  apply (main_sex_prompt "/data/assay.xlsx" "" "F"
           (mkDF ["temp"; "Day1"] [(0, [num 23; num 2])])).
  simpl. intros [H | [H | []]]; discriminate.
Defined.

(** ** The order of the rows *)








(** ** Tables the script makes nothing of *)

(** X15: when no kept column of the raw table starts with Day (the test is
    case sensitive, and a day column with eggs in its name is dropped), the
    run raises no error and returns the table without rows. *)
Theorem no_day_columns (raw : DataFrame) (wormSex : option string)
  (lowdata middata highdata : DataFrame) :
  filter_datatable raw wormSex = Ok (lowdata, middata, highdata) ->
  (forall cn, In cn (columns raw) -> startswith "Day" cn = true ->
     contains "eggs" cn) ->
  pipeline raw wormSex = Ok (mkDF ["time"; "23"; "30"; "37"] []).
Proof.
  intros H Hnone. unfold pipeline. rewrite H. cbn [bind].
  apply filter_datatable_Ok in H. destruct H as [-> [-> ->]].
  rewrite convert_datatable_eq.
  assert (Hdays : day_columns (spec_filtered raw wormSex lowTemp) = []).
  { unfold day_columns. rewrite spec_filtered_columns.
    apply filter_none. intros cn Hcn. apply filter_In in Hcn.
    destruct Hcn as [Hin Heggs].
    destruct (startswith "Day" cn) eqn:E; [| reflexivity].
    elim (no_eggs_contains cn Heggs). now apply Hnone. }
  rewrite Hdays. reflexivity.
Qed.

Lemma no_day_columns_example :
  pipeline misnamed_table None = Ok (mkDF ["time"; "23"; "30"; "37"] []).
Proof.
  apply (no_day_columns misnamed_table None
           (spec_filtered misnamed_table None lowTemp)
           (spec_filtered misnamed_table None midTemp)
           (spec_filtered misnamed_table None highTemp)).
  - reflexivity.
  - intros cn Hin Hday. simpl in Hin.
    destruct Hin as [<- | [<- | [<- | []]]]; try discriminate Hday.
    apply str_in_contains. reflexivity.
Defined.

Lemma spec_filtered_nothing (raw : DataFrame) (wormSex : option string) (cond : Z) :
  (forall r, In r (rows raw) -> spec_keeps (columns raw) wormSex cond r = false) ->
  spec_filtered raw wormSex cond = mkDF (filter no_eggs (columns raw)) [].
Proof.
  intros H. unfold spec_filtered.
  now rewrite (filter_none (spec_keeps (columns raw) wormSex cond)).
Qed.

(** X16: rows that are excluded, or whose temperature is none of 23, 30 and
    37, are dropped without notice.  When every row is such a row, and also
    when the table has no rows, the run returns the table without rows,
    whatever the day columns hold. *)
Theorem other_rows_dropped (raw : DataFrame) (wormSex : option string) :
  In "temp" (columns raw) ->
  (wormSex <> None -> In "sex" (columns raw)) ->
  (forall r, In r (rows raw) ->
     excluded (columns raw) r = true \/
     (temp_is (columns raw) lowTemp r = false /\
      temp_is (columns raw) midTemp r = false /\
      temp_is (columns raw) highTemp r = false)) ->
  pipeline raw wormSex = Ok (mkDF ["time"; "23"; "30"; "37"] []).
Proof.
  intros Htemp Hsex Hrows. unfold pipeline. rewrite filter_datatable_eq.
  apply has_column_In in Htemp. rewrite Htemp.
  assert (Hs : match wormSex with
               | Some _ => negb (has_column "sex" raw)
               | None => false
               end = false).
  { destruct wormSex as [w |]; [| reflexivity].
    assert (Hc : has_column "sex" raw = true)
      by (apply has_column_In, Hsex; discriminate).
    now rewrite Hc. }
  rewrite Hs. cbn [bind].
  assert (Hnone : forall cond, In cond [lowTemp; midTemp; highTemp] ->
            forall r, In r (rows raw) ->
              spec_keeps (columns raw) wormSex cond r = false).
  { intros cond Hcond r Hr. destruct (Hrows r Hr) as [Hex | [Hl [Hm Hh]]].
    - now apply spec_keeps_excluded.
    - unfold spec_keeps. simpl in Hcond.
      destruct Hcond as [<- | [<- | [<- | []]]];
        rewrite ?Hl, ?Hm, ?Hh; apply andb_false_r. }
  rewrite !spec_filtered_nothing by (apply Hnone; simpl; tauto).
  apply convert_datatable_empty.
Qed.

Lemma other_rows_dropped_example :
  pipeline other_temps_table None = Ok (mkDF ["time"; "23"; "30"; "37"] []).
Proof.
  apply (other_rows_dropped other_temps_table None).
  - simpl. tauto.
  - congruence.
  - intros r Hr. simpl in Hr.
    destruct Hr as [<- | [<- | [<- | []]]];
      [right | left | right]; repeat split; reflexivity.
Defined.

(** ** One sex and the other *)









(** ** The extension of the typed name *)

(** X18: a typed name without the extension and the same name with .csv
    typed out give the same save path; the extension is not added twice. *)
Theorem get_savepath_extension (fp sp_filename : string) :
  sp_filename <> ""%string ->
  endswith ".csv" sp_filename = false ->
  get_savepath fp (sp_filename ++ ".csv")%string = get_savepath fp sp_filename.
Proof.
  intros Hne Hext. unfold get_savepath.
  assert (H1 : Nat.eqb (String.length sp_filename) 0 = false).
  { destruct (Nat.eqb (String.length sp_filename) 0) eqn:E; [| reflexivity].
    apply length_zero in E. contradiction. }
  assert (H2 : Nat.eqb (String.length (sp_filename ++ ".csv")%string) 0 = false).
  { rewrite append_length. simpl. now rewrite Nat.add_comm. }
  rewrite H1, H2, Hext.
  now rewrite (endswith_app ".csv" sp_filename ".csv" (endswith_refl ".csv")).
Qed.

Lemma get_savepath_extension_example :
  get_savepath "/home/lab/data/assay.xlsx" ("run1" ++ ".csv")%string
  = get_savepath "/home/lab/data/assay.xlsx" "run1".
Proof.
  apply (get_savepath_extension "/home/lab/data/assay.xlsx" "run1").
  - discriminate.
  - reflexivity.
Defined.
